(** * flac_lyrics: a shallow embedding of [flac_lyrics.py]

    The script walks a directory, and for every FLAC file asks lrclib.net
    for lyrics, writes them to a [.lrc] sidecar and embeds them in the
    [LYRICS] Vorbis comment.  Everything the script touches outside its own
    variables (the directory tree, the files, the tag containers, the
    network, the terminal) is a field of the record [world]; a function of
    the script is a state-passing computation that returns a value, raises
    a Python exception, or runs out of fuel inside [while True]. *)

From Stdlib Require Import ZArith Ascii String List Bool Lia.
From stdpp Require Import base option gmap strings.
Import ListNotations.
Local Open Scope string_scope.
Set Warnings "-register-all".

(** ** Python strings *)

Module PyStr.

(** Characters are the code points below 256. *)
Definition code (c : ascii) : N := N_of_ascii c.

(** [str.isspace] on one character. *)
Definition isspace (c : ascii) : bool :=
  let n := code c in
  ((9 <=? n) && (n <=? 13) || (28 <=? n) && (n <=? 32)
   || (n =? 133) || (n =? 160))%N.

(** [str.lower] on one character: A-Z and the Latin-1 capitals. *)
Definition lower_char (c : ascii) : ascii :=
  let n := code c in
  if ((65 <=? n) && (n <=? 90)
      || (192 <=? n) && (n <=? 222) && negb (n =? 215))%N
  then ascii_of_N (n + 32) else c.

Fixpoint lower (s : string) : string :=
  match s with
  | EmptyString => EmptyString
  | String c r => String (lower_char c) (lower r)
  end.

Fixpoint lstrip (s : string) : string :=
  match s with
  | EmptyString => EmptyString
  | String c r => if isspace c then lstrip r else s
  end.

(** Drops the trailing white space: a character goes when it is white
    space and everything after it went too. *)
Fixpoint rstrip (s : string) : string :=
  match s with
  | EmptyString => EmptyString
  | String c r =>
      match rstrip r with
      | EmptyString => if isspace c then EmptyString else String c EmptyString
      | r' => String c r'
      end
  end.

Definition strip (s : string) : string := rstrip (lstrip s).

Fixpoint rev_acc (s acc : string) : string :=
  match s with
  | EmptyString => acc
  | String c r => rev_acc r (String c acc)
  end.

Definition rev (s : string) : string := rev_acc s EmptyString.

Definition startswith (p s : string) : bool := String.prefix p s.

Definition endswith (suffix s : string) : bool :=
  String.prefix (rev suffix) (rev s).

(** [s.rfind(c)] for a one-character needle: the last index, or -1. *)
Fixpoint rfind_from (c : ascii) (s : string) (i : Z) (last : Z) : Z :=
  match s with
  | EmptyString => last
  | String d r =>
      rfind_from c r (i + 1) (if Ascii.eqb d c then i else last)
  end.

Definition rfind (c : ascii) (s : string) : Z := rfind_from c s 0 (-1).

(** [s[i:i+1]]; the empty string out of range. *)
Definition char_at (s : string) (i : Z) : string :=
  if (i <? 0)%Z then EmptyString else String.substring (Z.to_nat i) 1 s.

(** [s[:i]] and [s[i:]] for [0 <= i]. *)
Definition take (i : Z) (s : string) : string :=
  String.substring 0 (Z.to_nat i) s.

Definition drop (i : Z) (s : string) : string :=
  String.substring (Z.to_nat i) (String.length s - Z.to_nat i) s.

End PyStr.

(** ** [os.path] on POSIX *)

Module OsPath.

Definition sep : ascii := "/"%char.
Definition extsep : ascii := "."%char.

(** The loop of [genericpath._splitext] that skips the leading dots of the
    file name; [n] bounds the iterations [dotIndex - filenameIndex]. *)
Fixpoint skip_dots (n : nat) (p : string) (filenameIndex dotIndex : Z)
  : string * string :=
  match n with
  | O => (p, EmptyString)
  | S n' =>
      if (filenameIndex <? dotIndex)%Z then
        if negb (String.eqb (PyStr.char_at p filenameIndex) (String extsep EmptyString))
        then (PyStr.take dotIndex p, PyStr.drop dotIndex p)
        else skip_dots n' p (filenameIndex + 1) dotIndex
      else (p, EmptyString)
  end.

Definition splitext (p : string) : string * string :=
  let sepIndex := PyStr.rfind sep p in
  let dotIndex := PyStr.rfind extsep p in
  if (sepIndex <? dotIndex)%Z
  then skip_dots (String.length p) p (sepIndex + 1) dotIndex
  else (p, EmptyString).

(** [os.path.join(a, b)] with two arguments. *)
Definition join (a b : string) : string :=
  if PyStr.startswith "/" b then b
  else if String.eqb a EmptyString || PyStr.endswith "/" a then a ++ b
  else a ++ "/" ++ b.

End OsPath.

(** ** Python values *)

(** The values the script handles without knowing their type: what
    [response.json()] returns and what [fetch_lyrics] hands on.  A JSON
    number is kept as an integer (only whether it is zero matters here);
    a dict is the list of its items, looked up from the front. *)
Inductive pyval : Type :=
| PNone
| PBool (b : bool)
| PInt (z : Z)
| PStr (s : string)
| PList (l : list pyval)
| PDict (d : list (string * pyval)).

(** Truth value of a value in [if v:] and [not v]. *)
Definition truthy (v : pyval) : bool :=
  match v with
  | PNone => false
  | PBool b => b
  | PInt z => negb (z =? 0)%Z
  | PStr s => negb (String.eqb s EmptyString)
  | PList l => match l with [] => false | _ => true end
  | PDict d => match d with [] => false | _ => true end
  end.

(** Truth value of an optional string ([None] or a [str]). *)
Definition truthy_str (o : option string) : bool :=
  match o with
  | None => false
  | Some s => negb (String.eqb s EmptyString)
  end.

Fixpoint assoc (k : string) (d : list (string * pyval)) : option pyval :=
  match d with
  | [] => None
  | (k', v) :: r => if String.eqb k' k then Some v else assoc k r
  end.

(** ** Exceptions and computations *)

Inductive exn : Type :=
| OSError
| EOFError
| TypeError
| ValueError
| AttributeError
| KeyError
| RequestException
| JSONDecodeError
| MutagenError.

(** How a computation ends: with a value, with an exception on its way
    up, or with the fuel of a [while True] used up. *)
Inductive outcome (A : Type) : Type :=
| Ret (a : A)
| Raise (e : exn)
| OutOfFuel.

Arguments Ret {A} a.
Arguments Raise {A} e.
Arguments OutOfFuel {A}.

(** ** The world *)

(** A directory as [os.scandir] shows it to [os.walk]: either the scan
    raises [OSError], or it lists sub-directories and other entries. *)
Inductive dirtree : Type :=
| Denied
| Listing (dirs : list (string * dirtree)) (files : list string).

(** What [requests.get] meets: an exception of the transport, or a
    response with a status code and a body, [None] when the body is not
    JSON. *)
Inductive http_reply : Type :=
| TransportError
| Response (status_code : Z) (body : option pyval).

(** A Vorbis comment block: (key, value) pairs in file order. *)
Definition vcomment : Type := list (string * string).

Record world : Type := mkWorld {
  (* the environment *)
  w_scandir : string -> option dirtree;  (* None: no such directory *)
  w_lrclib : nat -> string -> string -> http_reply;  (* n-th request *)
  w_stdin : nat -> option string;        (* None: end of input *)
  w_open_fails : string -> bool;         (* open(p, "w") raises OSError *)
  w_save_fails : string -> bool;         (* audio.save() raises *)
  w_now : string;                        (* strftime of datetime.now() *)
  (* the state *)
  w_files : gmap string string;          (* files that are no container *)
  w_flacs : gmap string vcomment;        (* files mutagen can parse; a path
                                            in both maps is a container *)
  w_yes_to_all : bool;                   (* the cell yes_to_all[0] *)
  w_stdin_pos : nat;                     (* lines read so far *)
  w_stdout : list string;                (* what was printed, in order *)
  w_requests : list (string * string)    (* GET parameters sent, in order *)
}.

Definition set_files (f : gmap string string) (w : world) : world :=
  mkWorld (w_scandir w) (w_lrclib w) (w_stdin w) (w_open_fails w)
    (w_save_fails w) (w_now w) f (w_flacs w) (w_yes_to_all w)
    (w_stdin_pos w) (w_stdout w) (w_requests w).

Definition set_flacs (f : gmap string vcomment) (w : world) : world :=
  mkWorld (w_scandir w) (w_lrclib w) (w_stdin w) (w_open_fails w)
    (w_save_fails w) (w_now w) (w_files w) f (w_yes_to_all w)
    (w_stdin_pos w) (w_stdout w) (w_requests w).

Definition set_yes_to_all (b : bool) (w : world) : world :=
  mkWorld (w_scandir w) (w_lrclib w) (w_stdin w) (w_open_fails w)
    (w_save_fails w) (w_now w) (w_files w) (w_flacs w) b
    (w_stdin_pos w) (w_stdout w) (w_requests w).

Definition set_stdin_pos (n : nat) (w : world) : world :=
  mkWorld (w_scandir w) (w_lrclib w) (w_stdin w) (w_open_fails w)
    (w_save_fails w) (w_now w) (w_files w) (w_flacs w) (w_yes_to_all w)
    n (w_stdout w) (w_requests w).

Definition set_stdout (o : list string) (w : world) : world :=
  mkWorld (w_scandir w) (w_lrclib w) (w_stdin w) (w_open_fails w)
    (w_save_fails w) (w_now w) (w_files w) (w_flacs w) (w_yes_to_all w)
    (w_stdin_pos w) o (w_requests w).

Definition set_requests (r : list (string * string)) (w : world) : world :=
  mkWorld (w_scandir w) (w_lrclib w) (w_stdin w) (w_open_fails w)
    (w_save_fails w) (w_now w) (w_files w) (w_flacs w) (w_yes_to_all w)
    (w_stdin_pos w) (w_stdout w) r.

(** A computation of the script. *)
Definition M (A : Type) : Type := world -> outcome A * world.

Definition ret {A} (a : A) : M A := fun w => (Ret a, w).

Definition raise {A} (e : exn) : M A := fun w => (Raise e, w).

Definition bind {A B} (m : M A) (k : A -> M B) : M B :=
  fun w =>
    match m w with
    | (Ret a, w') => k a w'
    | (Raise e, w') => (Raise e, w')
    | (OutOfFuel, w') => (OutOfFuel, w')
    end.

(** [try: m  except Exception: h].  What [m] did to the world before it
    raised stays done. *)
Definition try_except {A} (m : M A) (h : exn -> M A) : M A :=
  fun w =>
    match m w with
    | (Raise e, w') => h e w'
    | r => r
    end.

Notation "'do' x <- m ;; k" := (bind m (fun x => k))
  (at level 10, x name, m at level 99, k at level 200).
Notation "'run' m ;; k" := (bind m (fun _ => k))
  (at level 10, m at level 99, k at level 200).

(** ** The library calls the script makes *)

(** [print(s)] *)
Definition print (s : string) : M unit :=
  fun w => (Ret tt, set_stdout (w_stdout w ++ [s])%list w).

(** [input(prompt)]: shows the prompt, reads one line; [EOFError] at the
    end of the input. *)
Definition input (prompt : string) : M string :=
  fun w =>
    let w1 := set_stdout (w_stdout w ++ [prompt])%list w in
    match w_stdin w1 (w_stdin_pos w1) with
    | Some line => (Ret line, set_stdin_pos (S (w_stdin_pos w1)) w1)
    | None => (Raise EOFError, w1)
    end.

(** Something is at [p]: a container or any other file. *)
Definition path_exists (p : string) (w : world) : bool :=
  bool_decide (is_Some (w_files w !! p))
  || bool_decide (is_Some (w_flacs w !! p)).

(** [os.path.exists(p)] *)
Definition os_path_exists (p : string) : M bool :=
  fun w => (Ret (path_exists p w), w).

(** The world once [p] was opened for writing and [s] written: [p] is a
    text file, and what was a container there is one no more. *)
Definition write_text (p s : string) (w : world) : world :=
  set_flacs (delete p (w_flacs w)) (set_files (<[p := s]> (w_files w)) w).

(** [requests.get(url, params={artist_name, track_name}, timeout=10)] *)
Definition requests_get (artist title : string) : M (Z * option pyval) :=
  fun w =>
    let w1 := set_requests (w_requests w ++ [(artist, title)])%list w in
    match w_lrclib w (length (w_requests w)) artist title with
    | TransportError => (Raise RequestException, w1)
    | Response st body => (Ret (st, body), w1)
    end.

(** [response.json()] *)
Definition response_json (body : option pyval) : M pyval :=
  match body with
  | Some v => ret v
  | None => raise JSONDecodeError
  end.

(** [data.get(key)]: only a dict has the method. *)
Definition py_get (data : pyval) (key : string) : M pyval :=
  match data with
  | PDict d => ret (match assoc key d with Some v => v | None => PNone end)
  | _ => raise AttributeError
  end.

(** [data[key]] after [data.get(key)] was truthy. *)
Definition py_index (data : pyval) (key : string) : M pyval :=
  match data with
  | PDict d =>
      match assoc key d with Some v => ret v | None => raise KeyError end
  | _ => raise TypeError
  end.

(** *** mutagen: Vorbis comments, keys compared without case *)

Definition vc_same_key (key : string) (kv : string * string) : bool :=
  String.eqb (PyStr.lower (fst kv)) (PyStr.lower key).

(** [audio[key]] as a list, empty where Python raises [KeyError]. *)
Definition vc_values (key : string) (t : vcomment) : list string :=
  map snd (List.filter (vc_same_key key) t).

(** [audio.get(key, [None])[0]] *)
Definition vc_get_first (key : string) (t : vcomment) : option string :=
  match vc_values key t with
  | [] => None
  | v :: _ => Some v
  end.

(** [key in audio] *)
Definition vc_contains (key : string) (t : vcomment) : bool :=
  existsb (vc_same_key key) t.

(** The strings of [values] when every one is a [str], which is what
    [save] asks of the values of a key. *)
Fixpoint all_str (values : list pyval) : option (list string) :=
  match values with
  | [] => Some []
  | PStr s :: r =>
      match all_str r with Some l => Some (s :: l) | None => None end
  | _ => None
  end.

(** [audio[key] = value]: the old values of the key go, the new ones are
    appended; a value that is no list counts as a list of one.  [None]
    when a value is not a [str], which [save] answers with [ValueError]. *)
Definition vc_setitem (key : string) (value : pyval) (t : vcomment)
  : option vcomment :=
  let values := match value with PList l => l | v => [v] end in
  match all_str values with
  | Some l =>
      Some (List.filter (fun kv => negb (vc_same_key key kv)) t
            ++ map (fun v => (key, v)) l)%list
  | None => None
  end.

(** [FLAC(path)] *)
Definition FLAC (path : string) : M vcomment :=
  fun w =>
    match w_flacs w !! path with
    | Some t => (Ret t, w)
    | None => (Raise MutagenError, w)
    end.

(** [audio[key] = value; audio.save()] for the [audio] read from [path]. *)
Definition flac_set_and_save (path key : string) (value : pyval)
    (audio : vcomment) : M unit :=
  fun w =>
    match vc_setitem key value audio with
    | None => (Raise ValueError, w)
    | Some t =>
        if w_save_fails w path then (Raise OSError, w)
        else (Ret tt, set_flacs (<[path := t]> (w_flacs w)) w)
    end.

(** [with open(p, "w", encoding="utf-8") as f: f.write(text)]: the file
    is created or emptied by [open], whatever it was, then [write] takes a
    [str] only. *)
Definition open_write (p : string) (text : pyval) : M unit :=
  fun w =>
    if w_open_fails w p then (Raise OSError, w)
    else
      match text with
      | PStr s => (Ret tt, write_text p s w)
      | _ => (Raise TypeError, write_text p EmptyString w)
      end.

(** [os.walk(top)], top-down, its default [onerror=None]: a directory
    whose scan raises yields nothing and is passed over. *)
Fixpoint walk_tree (top : string) (t : dirtree)
  : list (string * list string * list string) :=
  match t with
  | Denied => []
  | Listing dirs files =>
      (top, map fst dirs, files)
        :: (fix subdirs (ds : list (string * dirtree)) :=
              match ds with
              | [] => []
              | (name, sub) :: r =>
                  (walk_tree (OsPath.join top name) sub ++ subdirs r)%list
              end) dirs
  end.

Definition os_walk (top : string) (w : world)
  : list (string * list string * list string) :=
  match w_scandir w top with
  | None => []
  | Some t => walk_tree top t
  end.

(** ** The script *)

Record Args : Type := mkArgs {
  directory : string;
  force : bool;
  prompt : bool;
  dry_run : bool;
  log_file : option string
}.

Definition fetch_lyrics (artist title : string) : M pyval :=
  try_except
    (do response <- requests_get artist title ;;
     if (fst response =? 200)%Z then
       do data <- response_json (snd response) ;;
       do synced <- py_get data "syncedLyrics" ;;
       if truthy synced then py_index data "syncedLyrics"
       else
         do plain <- py_get data "plainLyrics" ;;
         if truthy plain then py_index data "plainLyrics"
         else ret PNone
     else ret PNone)
    (fun _ => ret PNone).

Definition lrc_path_of (music_file : string) : string :=
  fst (OsPath.splitext music_file) ++ ".lrc".

Definition write_lrc_file (music_file : string) (lyrics : pyval)
    (force : bool) : M bool :=
  let lrc_path := lrc_path_of music_file in
  do ex <- os_path_exists lrc_path ;;
  if ex && negb force then ret false
  else
    run open_write lrc_path lyrics ;;
    ret true.

Definition embed_lyrics_flac (music_file : string) (lyrics : pyval)
    (force : bool) : M bool :=
  try_except
    (do audio <- FLAC music_file ;;
     if vc_contains "LYRICS" audio && negb force then ret false
     else
       run flac_set_and_save music_file "LYRICS" lyrics audio ;;
       ret true)
    (fun _ => ret false).

Definition get_yes_to_all : M bool := fun w => (Ret (w_yes_to_all w), w).

Definition put_yes_to_all (b : bool) : M unit :=
  fun w => (Ret tt, set_yes_to_all b w).

(** The answer as the loop compares it: [.strip().lower()]. *)
Definition normalise (line : string) : string := PyStr.lower (PyStr.strip line).

(** The [while True] of the prompt.  [Some status] is the [return] inside
    the loop, [None] is a [break]. *)
Fixpoint prompt_loop (fuel : nat) (path artist title : string)
  : M (option (string * string)) :=
  match fuel with
  | O => fun w => (OutOfFuel, w)
  | S fuel' =>
      do line <- input ("Update lyrics for '" ++ artist ++ " - " ++ title
                        ++ "'? [y/n/a] ") ;;
      let ans := normalise line in
      if String.eqb ans "a" then
        run put_yes_to_all true ;;
        ret None
      else if String.eqb ans "y" then ret None
      else if String.eqb ans "n" then ret (Some (path, "skipped_prompt"))
      else
        run print "Please type y (yes), n (no), or a (yes to all)." ;;
        prompt_loop fuel' path artist title
  end.

(** What follows the prompt in [process_file]. *)
Definition write_stage (path : string) (args : Args) (lyrics : pyval)
  : M (string * string) :=
  if dry_run args then ret (path, "dry_run")
  else
    do wrote_file <- write_lrc_file path lyrics (force args) ;;
    do wrote_tag <- embed_lyrics_flac path lyrics (force args) ;;
    if wrote_file || wrote_tag then ret (path, "updated")
    else ret (path, "skipped_existing").

(** From [if args.prompt and not yes_to_all[0]:] on. *)
Definition prompt_stage (fuel : nat) (path : string) (args : Args)
    (artist title : string) (lyrics : pyval) : M (string * string) :=
  do yes <- get_yes_to_all ;;
  if prompt args && negb yes then
    do asked <- prompt_loop fuel path artist title ;;
    match asked with
    | Some status => ret status
    | None => write_stage path args lyrics
    end
  else write_stage path args lyrics.

(** From [lrc_path = ...] on, for the two tags that were found. *)
Definition process_tagged (fuel : nat) (path : string) (args : Args)
    (audio : vcomment) (artist title : string) : M (string * string) :=
  let lrc_path := lrc_path_of path in
  do has_lrc <- os_path_exists lrc_path ;;
  let has_tag := vc_contains "LYRICS" audio in
  if (has_lrc || has_tag) && negb (force args) && negb (prompt args)
  then ret (path, "skipped_existing")
  else
    do lyrics <- fetch_lyrics artist title ;;
    if negb (truthy lyrics) then ret (path, "not_found")
    else prompt_stage fuel path args artist title lyrics.

Definition process_file (fuel : nat) (path : string) (args : Args)
  : M (string * string) :=
  do opened <- try_except (do a <- FLAC path ;; ret (Some a))
                          (fun _ => ret None) ;;
  match opened with
  | None => ret (path, "error")
  | Some audio =>
      let artist := vc_get_first "artist" audio in
      let title := vc_get_first "title" audio in
      if negb (truthy_str artist) || negb (truthy_str title)
      then ret (path, "missing_tags")
      else
        match artist, title with
        | Some artist, Some title =>
            process_tagged fuel path args audio artist title
        | _, _ => ret (path, "missing_tags") (* a [None] is not truthy *)
        end
  end.

Definition nl : string := String (ascii_of_nat 10) EmptyString.

(** The body of [for f in files:]. *)
Fixpoint for_files (fuel : nat) (args : Args) (root : string)
    (files : list string) (log_lines : list string) : M (list string) :=
  match files with
  | [] => ret log_lines
  | f :: rest =>
      if PyStr.endswith ".flac" (PyStr.lower f) then
        let full_path := OsPath.join root f in
        run print ("Processing: " ++ full_path) ;;
        do status <- process_file fuel full_path args ;;
        let line := fst status ++ ": " ++ snd status in
        run print ("  -> " ++ snd status) ;;
        for_files fuel args root rest (log_lines ++ [line])%list
      else for_files fuel args root rest log_lines
  end.

(** [for root, _, files in os.walk(args.directory):] *)
Fixpoint for_walk (fuel : nat) (args : Args)
    (walk : list (string * list string * list string))
    (log_lines : list string) : M (list string) :=
  match walk with
  | [] => ret log_lines
  | (root, _, files) :: rest =>
      do log_lines' <- for_files fuel args root files log_lines ;;
      for_walk fuel args rest log_lines'
  end.

Fixpoint print_all (lines : list string) : M unit :=
  match lines with
  | [] => ret tt
  | l :: rest => run print l ;; print_all rest
  end.

Definition get_now : M string := fun w => (Ret (w_now w), w).

(** [main] after [parse_args]; the list [log_lines] is returned for the
    benefit of the statements about it. *)
Definition main (fuel : nat) (args : Args) : M (list string) :=
  run put_yes_to_all false ;;
  do walk <- (fun w => (Ret (os_walk (directory args) w), w)) ;;
  do log_lines <- for_walk fuel args walk [] ;;
  run print (nl ++ "--- Summary ---") ;;
  run print_all log_lines ;;
  if truthy_str (log_file args) then
    do filename <-
      (match log_file args with
       | Some name =>
           if String.eqb name "AUTO" then
             do now <- get_now ;;
             ret ("lyrics_log_" ++ now ++ ".txt")
           else ret name
       | None => ret EmptyString
       end) ;;
    run open_write filename (PStr (String.concat nl log_lines)) ;;
    run print (nl ++ "Log written to " ++ filename) ;;
    ret log_lines
  else ret log_lines.

(** The exit status of the interpreter: 0 when [main] returns, 1 when an
    exception reaches the top. *)
Definition exit_status {A} (r : outcome A) : option Z :=
  match r with
  | Ret _ => Some 0%Z
  | Raise _ => Some 1%Z
  | OutOfFuel => None
  end.

(** ** Sample runs *)

Module Sample.

Definition tree : dirtree :=
  Listing [("sub", Listing [] ["b.FLAC"; "notes.txt"]); ("locked", Denied)]
          ["a.flac"; "cover.jpg"].

Definition tags_a : vcomment := [("ARTIST", "Foo"); ("TITLE", "Bar")].
Definition tags_b : vcomment := [("artist", "Baz"); ("title", "Qux")].

Definition synced : string := "[00:01.00]La la".

Definition reply (n : nat) (artist title : string) : http_reply :=
  if String.eqb artist "Foo" then
    Response 200 (Some (PDict [("id", PInt 7); ("syncedLyrics", PStr synced);
                               ("plainLyrics", PStr "La la")]))
  else if String.eqb artist "Baz" then
    Response 200 (Some (PDict [("syncedLyrics", PNone);
                               ("plainLyrics", PStr "plain text")]))
  else Response 404 (Some (PDict [("message", PStr "not found")])).

(** A library under [/m] with two tagged files, nothing written yet, an
    empty terminal input. *)
Definition w0 : world :=
  {| w_scandir := fun p => if String.eqb p "/m" then Some tree else None;
     w_lrclib := reply;
     w_stdin := fun _ => None;
     w_open_fails := fun _ => false;
     w_save_fails := fun _ => false;
     w_now := "2024-01-01_00-00-00";
     w_files := ∅;
     w_flacs := {[ "/m/a.flac" := tags_a; "/m/sub/b.FLAC" := tags_b ]};
     w_yes_to_all := false;
     w_stdin_pos := 0;
     w_stdout := [];
     w_requests := [] |}.

Definition plain_args : Args :=
  {| directory := "/m"; force := false; prompt := false; dry_run := false;
     log_file := None |}.

Definition prompt_args : Args :=
  {| directory := "/m"; force := false; prompt := true; dry_run := false;
     log_file := None |}.

Definition dry_args : Args :=
  {| directory := "/m"; force := false; prompt := false; dry_run := true;
     log_file := None |}.

Definition prompt_dry_args : Args :=
  {| directory := "/m"; force := false; prompt := true; dry_run := true;
     log_file := None |}.


(** The same library with another terminal input. *)
Definition typing (lines : nat -> option string) (w : world) : world :=
  mkWorld (w_scandir w) (w_lrclib w) lines (w_open_fails w)
    (w_save_fails w) (w_now w) (w_files w) (w_flacs w) (w_yes_to_all w)
    (w_stdin_pos w) (w_stdout w) (w_requests w).

(** The same library on a medium where no file can be opened for
    writing, while the tags can still be saved. *)
Definition read_only_dirs (w : world) : world :=
  mkWorld (w_scandir w) (w_lrclib w) (w_stdin w) (fun _ => true)
    (w_save_fails w) (w_now w) (w_files w) (w_flacs w) (w_yes_to_all w)
    (w_stdin_pos w) (w_stdout w) (w_requests w).

(** [a.flac] already has its sidecar. *)
Definition w_sidecar : world := set_files {[ "/m/a.lrc" := "old words" ]} w0.

(** [a.flac] carries a [LYRICS] comment whose value is empty. *)
Definition tags_empty_lyrics : vcomment :=
  [("ARTIST", "Foo"); ("TITLE", "Bar"); ("LYRICS", EmptyString)].

Definition w_empty_lyrics : world :=
  set_flacs {[ "/m/a.flac" := tags_empty_lyrics ]} w0.

(** A library of one directory: a file with no title, a file that is no
    FLAC inside, a file the service does not know. *)
Definition w_odd : world :=
  mkWorld
    (fun p => if String.eqb p "/m"
              then Some (Listing [] ["untitled.flac"; "broken.flac";
                                     "unknown.flac"])
              else None)
    reply (fun _ => None) (fun _ => false) (fun _ => false)
    "2024-01-01_00-00-00" ∅
    {[ "/m/untitled.flac" := [("artist", "Foo")];
       "/m/unknown.flac" := [("artist", "Nobody"); ("title", "Nothing")] ]}
    false 0 [] [].


(** The library in which yes-to-all was already given. *)
Definition w_flagged : world := set_yes_to_all true w0.

(** [a.flac] has its sidecar and yes-to-all was already given. *)
Definition w_sidecar_flagged : world := set_yes_to_all true w_sidecar.

(** A user who keeps typing something else. *)
Definition w_stubborn : world := typing (fun _ => Some "maybe") w0.

(** The odd library, [unknown.flac] having a sidecar, with a user ready
    to answer. *)
Definition w_unknown_sidecar : world :=
  typing (fun _ => Some "y")
    (set_files {[ "/m/unknown.lrc" := "old words" ]} w_odd).

(** A user who types something else first and then [Y]. *)
Definition w_hesitant : world :=
  typing (fun n => match n with
                   | 0 => Some "maybe"
                   | 1 => Some " Y"
                   | _ => None
                   end) w0.

(** A user who types [A] with blanks around it at the first question. *)
Definition w_all : world :=
  typing (fun n => match n with 0 => Some " A " | _ => None end) w0.

End Sample.


(** ** The fetcher as the specification words it *)

(** A field of the response body that is present and truthy (for a string:
    not empty). *)
Definition present_field (key : string) (body : option pyval) : option pyval :=
  match body with
  | Some (PDict d) =>
      match assoc key d with
      | Some v => if truthy v then Some v else None
      | None => None
      end
  | _ => None
  end.

(** Success is status 200; then the synced lyrics when present, else the
    plain lyrics when present; [None] in every other case. *)
Definition fetch_lyrics_spec (r : http_reply) : pyval :=
  match r with
  | TransportError => PNone
  | Response st body =>
      if (st =? 200)%Z then
        match body with
        | Some (PDict _) =>
            match present_field "syncedLyrics" body with
            | Some v => v
            | None =>
                match present_field "plainLyrics" body with
                | Some v => v
                | None => PNone
                end
            end
        | _ => PNone
        end
      else PNone
  end.

(** The world after one request was sent. *)
Definition requested (artist title : string) (w : world) : world :=
  set_requests (w_requests w ++ [(artist, title)])%list w.

(** The reply the next request will meet. *)
Definition next_reply (artist title : string) (w : world) : http_reply :=
  w_lrclib w (length (w_requests w)) artist title.

(** ** Parts of the world a step leaves alone *)

(** The terminal side of the world: what was read, and the shared flag. *)
Definition same_prompt_state (w w' : world) : Prop :=
  w_stdin_pos w' = w_stdin_pos w /\ w_yes_to_all w' = w_yes_to_all w.

(** The storage side: sidecars and tag containers. *)
Definition same_storage (w w' : world) : Prop :=
  w_files w' = w_files w /\ w_flacs w' = w_flacs w.

(** ** The world around one question *)

Definition prompt_text (artist title : string) : string :=
  "Update lyrics for '" ++ artist ++ " - " ++ title ++ "'? [y/n/a] ".

(** The question is on the screen. *)
Definition shown (artist title : string) (w : world) : world :=
  set_stdout (w_stdout w ++ [prompt_text artist title])%list w.

(** The question is on the screen and one line was read. *)
Definition asked (artist title : string) (w : world) : world :=
  set_stdin_pos (S (w_stdin_pos w)) (shown artist title w).

(** After an answer that is none of y, n, a: asked, and told to retype. *)
Definition reprompted (artist title : string) (w : world) : world :=
  set_stdout
    (w_stdout (asked artist title w)
     ++ ["Please type y (yes), n (no), or a (yes to all)."])%list
    (asked artist title w).

(** An answer the loop acts on: y, n or a once trimmed and lower-cased. *)
Definition accepted (line : string) : bool :=
  String.eqb (normalise line) "a" || String.eqb (normalise line) "y"
  || String.eqb (normalise line) "n".

(** What the loop hands back for an accepted answer. *)
Definition verdict (path line : string) : option (string * string) :=
  if String.eqb (normalise line) "n" then Some (path, "skipped_prompt")
  else None.

(** The next [k] lines of the input exist and are all rejected. *)
Definition rejects_next (k : nat) (w : world) : Prop :=
  forall i, i < k ->
    exists l, w_stdin w (w_stdin_pos w + i) = Some l /\ accepted l = false.


(** ** A file ready for the fetch *)

(** [os.path.exists(lrc_path)] for the sidecar of [path]. *)
Definition has_lrc (path : string) (w : world) : bool :=
  path_exists (lrc_path_of path) w.

(** The container at [path] parses and holds a non-empty artist and a
    non-empty title. *)
Definition tagged (w : world) (path : string) (audio : vcomment)
    (artist title : string) : Prop :=
  w_flacs w !! path = Some audio
  /\ vc_get_first "artist" audio = Some artist
  /\ vc_get_first "title" audio = Some title
  /\ artist <> EmptyString /\ title <> EmptyString.

(** The lyrics the next request for this pair would bring. *)
Definition lyrics_for (artist title : string) (w : world) : pyval :=
  fetch_lyrics_spec (next_reply artist title w).

(** Two worlds with the same files, containers and write failures. *)
Definition same_disk (w w' : world) : Prop :=
  w_files w = w_files w' /\ w_flacs w = w_flacs w'
  /\ w_open_fails w = w_open_fails w' /\ w_save_fails w = w_save_fails w'.

(** The question, where one is due, is answered y or a after [k] rejected
    lines, within the fuel. *)
Definition confirmed (fuel k : nat) (line : string) (args : Args)
    (w : world) : Prop :=
  prompt args && negb (w_yes_to_all w) = true ->
  rejects_next k w /\ w_stdin w (w_stdin_pos w + k) = Some line
  /\ accepted line = true /\ normalise line <> "n" /\ k < fuel.



(** The comments of [audio] once [LYRICS] is set to the one value [s]. *)
Definition with_lyrics (s : string) (audio : vcomment) : vcomment :=
  (List.filter (fun kv => negb (vc_same_key "LYRICS" kv)) audio
   ++ [("LYRICS", s)])%list.

(** ** Relations between the world before and after *)

(** A computation keeps a relation between the world it starts in and the
    world it leaves, however it ends. *)
Definition preserves (R : world -> world -> Prop) {A} (m : M A) : Prop :=
  forall w, R w (snd (m w)).

(** The environment is the same. *)
Definition same_env (w w' : world) : Prop :=
  w_scandir w' = w_scandir w /\ w_lrclib w' = w_lrclib w
  /\ w_stdin w' = w_stdin w /\ w_open_fails w' = w_open_fails w
  /\ w_save_fails w' = w_save_fails w /\ w_now w' = w_now w.



(** ** The log of a run *)

(** The statuses [process_file] can return. *)
Definition outcomes : list string :=
  ["error"; "missing_tags"; "skipped_existing"; "not_found";
   "skipped_prompt"; "dry_run"; "updated"].

(** The test of [main] on a file name. *)
Definition is_flac (f : string) : bool :=
  PyStr.endswith ".flac" (PyStr.lower f).

(** The paths [main] hands to [process_file], in the order of the walk. *)
Definition flac_paths_in (root : string) (files : list string) : list string :=
  map (OsPath.join root) (List.filter is_flac files).

Fixpoint flac_paths (walk : list (string * list string * list string))
  : list string :=
  match walk with
  | [] => []
  | (root, _, files) :: rest =>
      (flac_paths_in root files ++ flac_paths rest)%list
  end.

(** The line of the log for one file. *)
Definition log_line (ps : string * string) : string :=
  fst ps ++ ": " ++ snd ps.

(** The service answers with strings: what [fetch_lyrics] returns is a
    [str] or [None]. *)
Definition str_or_none (v : pyval) : Prop :=
  v = PNone \/ exists s, v = PStr s.

Definition service_sends_strings (w : world) : Prop :=
  forall n artist title,
    str_or_none (fetch_lyrics_spec (w_lrclib w n artist title)).

(** No sidecar path refuses [open]. *)
Definition sidecars_writable (w : world) : Prop :=
  forall p, w_open_fails w p = false.

(** Steps that change neither the environment, nor a file, nor a
    container. *)
Definition harmless (w w' : world) : Prop :=
  same_env w w' /\ same_storage w w'.


Module SampleMore.

(** The arguments of a run with [--force]. *)
Definition forced_args : Args :=
  {| directory := "/m"; force := true; prompt := false; dry_run := false;
     log_file := None |}.

(** A dry run that is to write its log to [run.log]. *)
Definition dry_log_args : Args :=
  {| directory := "/m"; force := false; prompt := false; dry_run := true;
     log_file := Some "run.log" |}.

End SampleMore.

(** ** The end of a run *)

(** The name of the log file, when one is written: [--log-file] with a
    non-empty name, the name made from the time when it is [AUTO]. *)
Definition log_filename (args : Args) (w : world) : option string :=
  match log_file args with
  | Some name =>
      if String.eqb name EmptyString then None
      else if String.eqb name "AUTO"
           then Some ("lyrics_log_" ++ w_now w ++ ".txt")
           else Some name
  | None => None
  end.

Definition summary_header : string := nl ++ "--- Summary ---".

(** What [main] prints once the walk is over. *)
Definition log_notice (name : string) : string :=
  nl ++ "Log written to " ++ name.

Definition summary_lines (args : Args) (w : world) (log_lines : list string)
  : list string :=
  summary_header
    :: (log_lines
        ++ match log_filename args w with
           | Some name => [log_notice name]
           | None => []
           end)%list.

(** The paths of the FLAC files under the root, in the order of the walk. *)
Definition flac_paths_of (args : Args) (w : world) : list string :=
  flac_paths (os_walk (directory args) w).

(** Every status is one [process_file] can return. *)
Definition all_outcomes (statuses : list string) : Prop :=
  Forall (fun s => In s outcomes) statuses.

(** The log lines for these paths with these statuses. *)
Definition log_of (paths statuses : list string) : list string :=
  map log_line (combine paths statuses).

(** A world in which no write of a sidecar fails and the service sends
    strings. *)
Definition calm (w : world) : Prop :=
  sidecars_writable w /\ service_sends_strings w.

(** A run that no exception of a write and no question can stop: no
    [--prompt], and either [--dry-run] or a calm world. *)
Definition safe_run (args : Args) (w : world) : Prop :=
  prompt args = false /\ (dry_run args = true \/ calm w).


(** ** The world around one file of the loop *)


(** * Properties *)

(** ** Checks of the library models *)

Example splitext_flac : OsPath.splitext "/m/a.b/song.flac" = ("/m/a.b/song", ".flac").
Proof. reflexivity. Qed.

Example splitext_nodot : OsPath.splitext "/m/a.b/song" = ("/m/a.b/song", EmptyString).
Proof. reflexivity. Qed.

Example splitext_hidden : OsPath.splitext "/m/.flac" = ("/m/.flac", EmptyString).
Proof. reflexivity. Qed.

Example splitext_hidden2 : OsPath.splitext "/m/..x.flac" = ("/m/..x", ".flac").
Proof. reflexivity. Qed.

Example join_plain : OsPath.join "/m" "a.flac" = "/m/a.flac".
Proof. reflexivity. Qed.

Example join_slash : OsPath.join "/m/" "a.flac" = "/m/a.flac".
Proof. reflexivity. Qed.

Example strip_lower_ex : PyStr.lower (PyStr.strip "  A 	") = "a".
Proof. reflexivity. Qed.

Example endswith_ex : PyStr.endswith ".flac" (PyStr.lower "Song.FLAC") = true.
Proof. reflexivity. Qed.

(** ** Checks of whole runs *)

Example sample_walk :
  os_walk "/m" Sample.w0
  = [("/m", ["sub"; "locked"], ["a.flac"; "cover.jpg"]);
     ("/m/sub", [], ["b.FLAC"; "notes.txt"])].
Proof. reflexivity. Qed.

Example sample_run_log :
  fst (main 0 Sample.plain_args Sample.w0)
  = Ret ["/m/a.flac: updated"; "/m/sub/b.FLAC: updated"].
Proof. vm_compute. reflexivity. Qed.

Example sample_run_sidecar :
  w_files (snd (main 0 Sample.plain_args Sample.w0)) !! "/m/a.lrc"
  = Some Sample.synced
  /\ w_files (snd (main 0 Sample.plain_args Sample.w0)) !! "/m/sub/b.lrc"
     = Some "plain text".
Proof. vm_compute. split; reflexivity. Qed.

Example sample_run_tag :
  vc_values "lyrics" <$> w_flacs (snd (main 0 Sample.plain_args Sample.w0)) !! "/m/a.flac"
  = Some [Sample.synced].
Proof. vm_compute. reflexivity. Qed.

(** A second run over what the first one left skips both files and sends
    no request. *)
Example sample_second_run :
  let w1 := snd (main 0 Sample.plain_args Sample.w0) in
  fst (main 0 Sample.plain_args w1)
  = Ret ["/m/a.flac: skipped_existing"; "/m/sub/b.FLAC: skipped_existing"]
  /\ w_requests (snd (main 0 Sample.plain_args w1)) = w_requests w1.
Proof. vm_compute. split; reflexivity. Qed.

(** A status that is not 200, a file without title and a file that does
    not parse: one request in all, nothing written. *)
Example sample_odd_run :
  fst (main 0 Sample.plain_args Sample.w_odd)
  = Ret ["/m/untitled.flac: missing_tags"; "/m/broken.flac: error";
         "/m/unknown.flac: not_found"]
  /\ w_requests (snd (main 0 Sample.plain_args Sample.w_odd))
     = [("Nobody", "Nothing")]
  /\ w_files (snd (main 0 Sample.plain_args Sample.w_odd)) = ∅.
Proof. vm_compute. repeat split; reflexivity. Qed.

(** In prompt mode the answer [A] at the first file serves the second
    file too: one line is read in the whole run. *)
Example sample_yes_to_all_run :
  fst (main 1 Sample.prompt_args Sample.w_all)
  = Ret ["/m/a.flac: updated"; "/m/sub/b.FLAC: updated"]
  /\ w_stdin_pos (snd (main 1 Sample.prompt_args Sample.w_all)) = 1.
Proof. vm_compute. split; reflexivity. Qed.

(** At the end of the input [input] raises [EOFError], which nothing
    catches. *)
Example sample_end_of_input :
  fst (main 1 Sample.prompt_args Sample.w0) = Raise EOFError.
Proof. vm_compute. reflexivity. Qed.

(** A log file named as a container: the dry run opens it for writing all
    the same, and the container is one no more. *)
Example sample_log_over_container :
  let args := {| directory := "/m"; force := false; prompt := false;
                 dry_run := true; log_file := Some "/m/a.flac" |} in
  let w := snd (main 0 args Sample.w0) in
  w_flacs w !! "/m/a.flac" = None
  /\ w_files w !! "/m/a.flac"
     = Some ("/m/a.flac: dry_run" ++ nl ++ "/m/sub/b.FLAC: dry_run")
  /\ fst (process_file 0 "/m/a.flac" args w) = Ret ("/m/a.flac", "error").
Proof. vm_compute. repeat split; reflexivity. Qed.

(** A container whose name ends in [.lrc] is its own sidecar: with
    [--force] the sidecar write replaces it, the tag write then fails
    inside [embed_lyrics_flac], and the next call finds no container. *)
Example sample_own_sidecar :
  let args := {| directory := "/m"; force := true; prompt := false;
                 dry_run := false; log_file := None |} in
  let w := set_flacs {[ "/m/song.lrc" := Sample.tags_a ]} Sample.w0 in
  let r := process_file 0 "/m/song.lrc" args w in
  fst r = Ret ("/m/song.lrc", "updated")
  /\ w_flacs (snd r) !! "/m/song.lrc" = None
  /\ w_files (snd r) !! "/m/song.lrc" = Some Sample.synced
  /\ fst (process_file 0 "/m/song.lrc" args (snd r))
     = Ret ("/m/song.lrc", "error").
Proof. vm_compute. repeat split; reflexivity. Qed.

(** ** The fetcher *)

Lemma fetch_lyrics_run (artist title : string) (w : world) :
  fetch_lyrics artist title w
  = (Ret (fetch_lyrics_spec (next_reply artist title w)),
     requested artist title w).
Proof.
  unfold fetch_lyrics, try_except, bind, requests_get, next_reply, requested.
  destruct (w_lrclib w (length (w_requests w)) artist title)
    as [|st body]; [reflexivity|].
  cbn [fst snd fetch_lyrics_spec].
  destruct (st =? 200)%Z; [|reflexivity].
  destruct body as [data|]; [|reflexivity].
  destruct data as [ | | | | |d]; try reflexivity.
  cbn [response_json ret py_get present_field].
  destruct (assoc "syncedLyrics" d) as [sv|] eqn:Hs.
  - destruct (truthy sv) eqn:Ts.
    + cbn [py_index]. rewrite Hs. reflexivity.
    + destruct (assoc "plainLyrics" d) as [pv|] eqn:Hp.
      * destruct (truthy pv) eqn:Tp.
        -- cbn [py_index]. rewrite Hp. reflexivity.
        -- reflexivity.
      * reflexivity.
  - cbn [truthy].
    destruct (assoc "plainLyrics" d) as [pv|] eqn:Hp.
    + destruct (truthy pv) eqn:Tp.
      * cbn [py_index]. rewrite Hp. reflexivity.
      * reflexivity.
    + reflexivity.
Qed.

(** C5. For every artist and title, [fetch_lyrics] sends one request
    and returns: the synced-lyrics field when the status is 200 and the
    field is present and not empty, else the plain-lyrics field when present
    and not empty, and [None] in every other case (another status, neither
    field, a body that is not a JSON object, an exception of the
    transport). It always returns: no exception leaves it. *)
Theorem fetch_lyrics_refines_spec (artist title : string) (w : world) :
  fetch_lyrics artist title w
  = (Ret (fetch_lyrics_spec (next_reply artist title w)),
     requested artist title w).
Proof. exact (fetch_lyrics_run artist title w). Qed.

(** ** What each step leaves alone *)

(** Splits on whatever the computation in the goal branches on next. *)
Ltac branch :=
  match goal with
  | |- context [match ?x with _ => _ end] =>
      lazymatch x with
      | context [match _ with _ => _ end] => fail
      | _ => destruct x eqn:?
      end
  end.

Ltac run_all := repeat (cbn -[lookup insert delete] in *; try branch).

Lemma write_lrc_file_frame music_file lyrics frc w :
  let w' := snd (write_lrc_file music_file lyrics frc w) in
  same_prompt_state w w'
  /\ (forall p, p <> lrc_path_of music_file ->
        w_flacs w' !! p = w_flacs w !! p)
  /\ w_requests w' = w_requests w /\ w_stdout w' = w_stdout w.
Proof.
  unfold write_lrc_file, bind, os_path_exists, open_write, same_prompt_state,
    write_text.
  run_all; repeat split; auto; intros p Hp; apply lookup_delete_ne;
    congruence.
Qed.

Lemma embed_lyrics_flac_frame music_file lyrics frc w :
  let w' := snd (embed_lyrics_flac music_file lyrics frc w) in
  same_prompt_state w w' /\ w_files w' = w_files w
  /\ w_requests w' = w_requests w /\ w_stdout w' = w_stdout w.
Proof.
  unfold embed_lyrics_flac, try_except, bind, FLAC, flac_set_and_save,
    same_prompt_state.
  run_all; auto.
Qed.

Lemma write_stage_frame path args lyrics w :
  let w' := snd (write_stage path args lyrics w) in
  same_prompt_state w w'
  /\ w_requests w' = w_requests w /\ w_stdout w' = w_stdout w.
Proof.
  unfold write_stage. destruct (dry_run args).
  { cbn. unfold same_prompt_state. auto. }
  unfold bind.
  pose proof (write_lrc_file_frame path lyrics (force args) w) as Hf.
  destruct (write_lrc_file path lyrics (force args) w) as [[wf|e|] w1];
    cbn in Hf; try exact (conj (proj1 Hf) (proj2 (proj2 Hf))).
  pose proof (embed_lyrics_flac_frame path lyrics (force args) w1) as He.
  destruct (embed_lyrics_flac path lyrics (force args) w1) as [[wt|e|] w2];
    cbn in He; unfold same_prompt_state in *;
    try destruct (wf || wt); cbn; intuition congruence.
Qed.

Lemma write_stage_dry_run path args lyrics w :
  dry_run args = true ->
  write_stage path args lyrics w = (Ret (path, "dry_run"), w).
Proof. intros H. unfold write_stage. rewrite H. reflexivity. Qed.

(** One turn of the prompt loop, spelled out on the world. *)
Lemma prompt_loop_step fuel path artist title w :
  prompt_loop (S fuel) path artist title w
  = match w_stdin w (w_stdin_pos w) with
    | None => (Raise EOFError, shown artist title w)
    | Some line =>
        let ans := normalise line in
        if String.eqb ans "a"
        then (Ret None, set_yes_to_all true (asked artist title w))
        else if String.eqb ans "y" then (Ret None, asked artist title w)
        else if String.eqb ans "n"
        then (Ret (Some (path, "skipped_prompt")), asked artist title w)
        else prompt_loop fuel path artist title (reprompted artist title w)
    end.
Proof.
  cbn [prompt_loop]. unfold bind at 1. unfold input.
  cbn [w_stdin w_stdin_pos set_stdout].
  destruct (w_stdin w (w_stdin_pos w)) as [line|]; [|reflexivity].
  cbn zeta.
  destruct (String.eqb (normalise line) "a"); [reflexivity|].
  destruct (String.eqb (normalise line) "y"); [reflexivity|].
  destruct (String.eqb (normalise line) "n"); reflexivity.
Qed.

Lemma prompt_loop_frame fuel path artist title w :
  let w' := snd (prompt_loop fuel path artist title w) in
  same_storage w w' /\ w_requests w' = w_requests w.
Proof.
  revert w. induction fuel as [|fuel IH]; intros w.
  { cbn. unfold same_storage. auto. }
  rewrite prompt_loop_step.
  destruct (w_stdin w (w_stdin_pos w)) as [line|];
    [|cbn; unfold same_storage; auto].
  cbn zeta.
  destruct (String.eqb (normalise line) "a");
    [cbn; unfold same_storage; auto|].
  destruct (String.eqb (normalise line) "y");
    [cbn; unfold same_storage; auto|].
  destruct (String.eqb (normalise line) "n");
    [cbn; unfold same_storage; auto|].
  specialize (IH (reprompted artist title w)). cbn in IH. exact IH.
Qed.

(** ** The prompt loop *)

Lemma prompt_loop_reject fuel path artist title w line :
  w_stdin w (w_stdin_pos w) = Some line ->
  accepted line = false ->
  prompt_loop (S fuel) path artist title w
  = prompt_loop fuel path artist title (reprompted artist title w).
Proof.
  intros Hl Ha. rewrite prompt_loop_step, Hl. cbn zeta.
  unfold accepted in Ha.
  apply orb_false_elim in Ha as [Ha Hn].
  apply orb_false_elim in Ha as [Ha Hy].
  rewrite Ha, Hy, Hn. reflexivity.
Qed.

Lemma prompt_loop_accept fuel path artist title w line :
  w_stdin w (w_stdin_pos w) = Some line ->
  accepted line = true ->
  prompt_loop (S fuel) path artist title w
  = (Ret (verdict path line),
     if String.eqb (normalise line) "a"
     then set_yes_to_all true (asked artist title w)
     else asked artist title w).
Proof.
  intros Hl Ha. rewrite prompt_loop_step, Hl. cbn zeta.
  unfold accepted in Ha. unfold verdict.
  destruct (String.eqb (normalise line) "a") eqn:Ea.
  { apply String.eqb_eq in Ea. rewrite Ea. reflexivity. }
  destruct (String.eqb (normalise line) "y") eqn:Ey.
  { apply String.eqb_eq in Ey. rewrite Ey. reflexivity. }
  destruct (String.eqb (normalise line) "n") eqn:En; [reflexivity|].
  discriminate Ha.
Qed.

Lemma rejects_next_shift k w artist title :
  rejects_next (S k) w -> rejects_next k (reprompted artist title w).
Proof.
  intros H i Hi. destruct (H (S i)) as [l Hl]; [lia|].
  exists l. cbn. rewrite <- Nat.add_succ_r. exact Hl.
Qed.

Lemma rejects_next_head k w :
  rejects_next (S k) w ->
  exists l, w_stdin w (w_stdin_pos w) = Some l /\ accepted l = false.
Proof.
  intros H. destruct (H 0) as [l Hl]; [lia|].
  rewrite Nat.add_0_r in Hl. eauto.
Qed.

(** After [k] rejected lines an accepted one ends the loop, given fuel
    for [k + 1] turns. *)
Lemma prompt_loop_returns k : forall fuel path artist title w line,
  rejects_next k w ->
  w_stdin w (w_stdin_pos w + k) = Some line ->
  accepted line = true ->
  k < fuel ->
  fst (prompt_loop fuel path artist title w) = Ret (verdict path line)
  /\ w_stdin_pos (snd (prompt_loop fuel path artist title w))
     = S (w_stdin_pos w + k)
  /\ w_yes_to_all (snd (prompt_loop fuel path artist title w))
     = (String.eqb (normalise line) "a" || w_yes_to_all w).
Proof.
  induction k as [|k IH]; intros fuel path artist title w line Hr Hl Ha Hf.
  - destruct fuel as [|fuel]; [lia|].
    rewrite Nat.add_0_r in Hl.
    rewrite (prompt_loop_accept _ _ _ _ _ _ Hl Ha).
    rewrite Nat.add_0_r.
    destruct (String.eqb (normalise line) "a"); cbn; auto.
  - destruct fuel as [|fuel]; [lia|].
    destruct (rejects_next_head _ _ Hr) as [l [Hl0 Hrej]].
    rewrite (prompt_loop_reject _ _ _ _ _ _ Hl0 Hrej).
    destruct (IH fuel path artist title (reprompted artist title w) line)
      as [H1 [H2 H3]].
    + apply rejects_next_shift, Hr.
    + cbn. rewrite <- Nat.add_succ_r. exact Hl.
    + exact Ha.
    + lia.
    + rewrite H1, H2, H3. cbn. repeat split; auto; lia.
Qed.



(** ** One file *)

Lemma truthy_str_Some s : s <> EmptyString -> truthy_str (Some s) = true.
Proof.
  intros H. cbn. destruct (String.eqb s EmptyString) eqn:E; [|reflexivity].
  apply String.eqb_eq in E. contradiction.
Qed.

Lemma process_file_error fuel path args w :
  w_flacs w !! path = None ->
  process_file fuel path args w = (Ret (path, "error"), w).
Proof.
  intros H. unfold process_file, bind, try_except, FLAC. rewrite H.
  reflexivity.
Qed.

Lemma process_file_tagged fuel path args w audio artist title :
  tagged w path audio artist title ->
  process_file fuel path args w
  = process_tagged fuel path args audio artist title w.
Proof.
  intros (Hf & Ha & Ht & Hna & Hnt).
  unfold process_file, bind at 1, try_except, bind at 1, FLAC.
  rewrite Hf. cbn [ret]. rewrite Ha, Ht.
  rewrite (truthy_str_Some _ Hna), (truthy_str_Some _ Hnt). reflexivity.
Qed.

Lemma process_tagged_run fuel path args audio artist title w :
  process_tagged fuel path args audio artist title w
  = if (has_lrc path w || vc_contains "LYRICS" audio)
       && negb (force args) && negb (prompt args)
    then (Ret (path, "skipped_existing"), w)
    else if negb (truthy (lyrics_for artist title w))
    then (Ret (path, "not_found"), requested artist title w)
    else prompt_stage fuel path args artist title
           (lyrics_for artist title w) (requested artist title w).
Proof.
  unfold process_tagged, bind at 1, os_path_exists. fold (has_lrc path w).
  destruct ((has_lrc path w || vc_contains "LYRICS" audio)
            && negb (force args) && negb (prompt args)); [reflexivity|].
  unfold bind. rewrite fetch_lyrics_run. fold (lyrics_for artist title w).
  destruct (negb (truthy (lyrics_for artist title w))); reflexivity.
Qed.

Lemma prompt_stage_direct fuel path args artist title lyrics w :
  prompt args && negb (w_yes_to_all w) = false ->
  prompt_stage fuel path args artist title lyrics w
  = write_stage path args lyrics w.
Proof.
  intros H. unfold prompt_stage, bind, get_yes_to_all. rewrite H.
  reflexivity.
Qed.

Lemma prompt_stage_ask fuel path args artist title lyrics w :
  prompt args && negb (w_yes_to_all w) = true ->
  prompt_stage fuel path args artist title lyrics w
  = match prompt_loop fuel path artist title w with
    | (Ret (Some status), w') => (Ret status, w')
    | (Ret None, w') => write_stage path args lyrics w'
    | (Raise e, w') => (Raise e, w')
    | (OutOfFuel, w') => (OutOfFuel, w')
    end.
Proof.
  intros H. unfold prompt_stage, bind at 1, get_yes_to_all. rewrite H.
  unfold bind.
  destruct (prompt_loop fuel path artist title w) as [[[s|]|e|] w'];
    reflexivity.
Qed.


Lemma same_prompt_state_refl w : same_prompt_state w w.
Proof. split; reflexivity. Qed.

Lemma same_prompt_state_trans w1 w2 w3 :
  same_prompt_state w1 w2 -> same_prompt_state w2 w3 ->
  same_prompt_state w1 w3.
Proof. unfold same_prompt_state. intuition congruence. Qed.

(** Where no question is due, a file is processed without reading the
    terminal and without touching the flag. *)
Lemma process_tagged_silent fuel path args audio artist title w :
  prompt args && negb (w_yes_to_all w) = false ->
  same_prompt_state w
    (snd (process_tagged fuel path args audio artist title w)).
Proof.
  intros H. rewrite process_tagged_run.
  destruct ((has_lrc path w || vc_contains "LYRICS" audio)
            && negb (force args) && negb (prompt args));
    [apply same_prompt_state_refl|].
  destruct (negb (truthy (lyrics_for artist title w)));
    [split; reflexivity|].
  rewrite prompt_stage_direct by exact H.
  apply (same_prompt_state_trans _ (requested artist title w));
    [split; reflexivity|].
  apply write_stage_frame.
Qed.

Lemma process_file_silent fuel path args w :
  prompt args && negb (w_yes_to_all w) = false ->
  same_prompt_state w (snd (process_file fuel path args w)).
Proof.
  intros H. unfold process_file, bind at 1, try_except, bind at 1, FLAC.
  destruct (w_flacs w !! path) as [audio|];
    [|apply same_prompt_state_refl].
  cbn [ret].
  destruct (negb (truthy_str (vc_get_first "artist" audio))
            || negb (truthy_str (vc_get_first "title" audio)));
    [apply same_prompt_state_refl|].
  destruct (vc_get_first "artist" audio) as [artist|];
    [|apply same_prompt_state_refl].
  destruct (vc_get_first "title" audio) as [title|];
    [|apply same_prompt_state_refl].
  apply process_tagged_silent, H.
Qed.

Lemma for_files_silent fuel args root files : forall log_lines w,
  prompt args && negb (w_yes_to_all w) = false ->
  same_prompt_state w (snd (for_files fuel args root files log_lines w)).
Proof.
  induction files as [|f rest IH]; intros log_lines w H.
  { apply same_prompt_state_refl. }
  cbn [for_files].
  destruct (PyStr.endswith ".flac" (PyStr.lower f)); [|apply IH, H].
  unfold bind at 1, print. unfold bind at 1.
  set (w1 := set_stdout _ w).
  assert (H1 : prompt args && negb (w_yes_to_all w1) = false) by exact H.
  pose proof (process_file_silent fuel (OsPath.join root f) args w1 H1) as Hp.
  destruct (process_file fuel (OsPath.join root f) args w1)
    as [[status|e|] w2]; cbn [snd] in Hp |- *; try exact Hp.
  unfold bind at 1, print.
  set (w3 := set_stdout _ w2).
  apply (same_prompt_state_trans _ w3); [exact Hp|].
  apply IH. destruct Hp as [_ Hy]. cbn. rewrite Hy. exact H.
Qed.

Lemma for_walk_silent fuel args walk : forall log_lines w,
  prompt args && negb (w_yes_to_all w) = false ->
  same_prompt_state w (snd (for_walk fuel args walk log_lines w)).
Proof.
  induction walk as [|[[root dirs] files] rest IH]; intros log_lines w H.
  { apply same_prompt_state_refl. }
  cbn [for_walk]. unfold bind at 1.
  pose proof (for_files_silent fuel args root files log_lines w H) as Hf.
  destruct (for_files fuel args root files log_lines w)
    as [[log'|e|] w1]; cbn [snd] in Hf |- *; try exact Hf.
  apply (same_prompt_state_trans _ w1); [exact Hf|].
  apply IH. destruct Hf as [_ Hy]. rewrite Hy. exact H.
Qed.





(** ** Skipping, asking, dry runs *)

Lemma prompt_stage_requests fuel path args artist title lyrics w :
  w_requests (snd (prompt_stage fuel path args artist title lyrics w))
  = w_requests w.
Proof.
  destruct (prompt args && negb (w_yes_to_all w)) eqn:E.
  - rewrite prompt_stage_ask by exact E.
    pose proof (prompt_loop_frame fuel path artist title w) as [_ Hr].
    destruct (prompt_loop fuel path artist title w) as [[[s|]|e|] w'];
      cbn [snd] in Hr |- *; try exact Hr.
    rewrite <- Hr. apply write_stage_frame.
  - rewrite prompt_stage_direct by exact E. apply write_stage_frame.
Qed.

Lemma prompt_loop_stdout fuel : forall path artist title w,
  exists l,
    w_stdout (snd (prompt_loop fuel path artist title w))
    = (w_stdout w ++ l)%list.
Proof.
  induction fuel as [|fuel IH]; intros path artist title w.
  { exists []. cbn. rewrite app_nil_r. reflexivity. }
  rewrite prompt_loop_step.
  destruct (w_stdin w (w_stdin_pos w)) as [line|];
    [|exists [prompt_text artist title]; reflexivity].
  cbn zeta.
  destruct (String.eqb (normalise line) "a");
    [exists [prompt_text artist title]; reflexivity|].
  destruct (String.eqb (normalise line) "y");
    [exists [prompt_text artist title]; reflexivity|].
  destruct (String.eqb (normalise line) "n");
    [exists [prompt_text artist title]; reflexivity|].
  destruct (IH path artist title (reprompted artist title w)) as [l Hl].
  rewrite Hl. cbn. eexists.
  rewrite <- !app_assoc. reflexivity.
Qed.

Lemma prompt_loop_shows_question fuel path artist title w :
  exists l,
    w_stdout (snd (prompt_loop (S fuel) path artist title w))
    = (w_stdout w ++ prompt_text artist title :: l)%list.
Proof.
  rewrite prompt_loop_step.
  destruct (w_stdin w (w_stdin_pos w)) as [line|];
    [|exists []; reflexivity].
  cbn zeta.
  destruct (String.eqb (normalise line) "a"); [exists []; reflexivity|].
  destruct (String.eqb (normalise line) "y"); [exists []; reflexivity|].
  destruct (String.eqb (normalise line) "n"); [exists []; reflexivity|].
  destruct (prompt_loop_stdout fuel path artist title
              (reprompted artist title w)) as [l Hl].
  rewrite Hl. cbn. eexists. rewrite <- !app_assoc. reflexivity.
Qed.

Lemma prompt_stage_shows_question fuel path args artist title lyrics w :
  prompt args && negb (w_yes_to_all w) = true ->
  exists l,
    w_stdout (snd (prompt_stage (S fuel) path args artist title lyrics w))
    = (w_stdout w ++ prompt_text artist title :: l)%list.
Proof.
  intros E. rewrite prompt_stage_ask by exact E.
  destruct (prompt_loop_shows_question fuel path artist title w) as [l Hl].
  destruct (prompt_loop (S fuel) path artist title w) as [[[s|]|e|] w'];
    cbn [snd] in Hl |- *; try (exists l; exact Hl).
  exists l. rewrite <- Hl. apply write_stage_frame.
Qed.

(** C6. A file with an artist and a title whose sidecar exists, or whose
    container has a [LYRICS] comment, is answered [skipped_existing] when
    neither [--force] nor [--prompt] is given, and the world is left as it
    was: in particular no request is sent. *)
Theorem existing_lyrics_skipped_without_request (fuel : nat)
    (path : string) (args : Args) (w : world) (audio : vcomment)
    (artist title : string) :
  tagged w path audio artist title ->
  has_lrc path w = true \/ vc_contains "LYRICS" audio = true ->
  force args = false ->
  prompt args = false ->
  process_file fuel path args w = (Ret (path, "skipped_existing"), w)
  /\ w_requests (snd (process_file fuel path args w)) = w_requests w.
Proof.
  intros Ht Hex Hf Hp.
  assert (E : process_file fuel path args w
              = (Ret (path, "skipped_existing"), w)).
  { rewrite (process_file_tagged _ _ _ _ _ _ _ Ht), process_tagged_run.
    rewrite Hf, Hp.
    replace (has_lrc path w || vc_contains "LYRICS" audio) with true
      by (destruct Hex as [-> | ->];
          [reflexivity | symmetry; apply orb_true_r]).
    reflexivity. }
  rewrite E. split; reflexivity.
Qed.

Lemma existing_lyrics_skipped_without_request_witness :
  process_file 0 "/m/a.flac" Sample.plain_args Sample.w_sidecar
  = (Ret ("/m/a.flac", "skipped_existing"), Sample.w_sidecar)
  /\ w_requests (snd (process_file 0 "/m/a.flac" Sample.plain_args
                        Sample.w_sidecar))
     = w_requests Sample.w_sidecar.
Proof.
  apply (existing_lyrics_skipped_without_request 0 "/m/a.flac"
           Sample.plain_args Sample.w_sidecar Sample.tags_a "Foo" "Bar").
  - repeat split; try reflexivity; discriminate.
  - left. reflexivity.
  - reflexivity.
  - reflexivity.
Defined.

Lemma accepted_n line : normalise line = "n" -> accepted line = true.
Proof. intros H. unfold accepted. rewrite H. reflexivity. Qed.

(** What refutes C4 as the specification words it: in prompt mode a
    file with a sidecar is fetched for, yet the user is not asked when no
    lyrics come back (here the status is 404), nor when yes-to-all was
    given before: nothing is printed and no line is read. *)
Lemma prompt_mode_does_not_always_ask :
  process_file 5 "/m/unknown.flac" Sample.prompt_args
    Sample.w_unknown_sidecar
  = (Ret ("/m/unknown.flac", "not_found"),
     requested "Nobody" "Nothing" Sample.w_unknown_sidecar)
  /\ w_stdout (snd (process_file 5 "/m/unknown.flac" Sample.prompt_args
                      Sample.w_unknown_sidecar)) = []
  /\ fst (process_file 5 "/m/a.flac" Sample.prompt_args
            Sample.w_sidecar_flagged) = Ret ("/m/a.flac", "updated")
  /\ w_stdout (snd (process_file 5 "/m/a.flac" Sample.prompt_args
                      Sample.w_sidecar_flagged)) = []
  /\ w_stdin_pos (snd (process_file 5 "/m/a.flac" Sample.prompt_args
                         Sample.w_sidecar_flagged)) = 0.
Proof. vm_compute. repeat split; reflexivity. Qed.

(** C4, amended. In prompt mode the early skip is passed over even
    without [--force]: for a file with its two tags that already has a
    sidecar or a [LYRICS] comment the request is sent all the same.  When no
    lyrics come back the file is answered [not_found] and nothing is asked.
    When lyrics come back and yes-to-all is set the file goes to the write
    stage unasked.  When lyrics come back and yes-to-all is not set the
    question is put to the user, and the answer n, after any number of
    rejected lines, ends the file with [skipped_prompt], nothing
    written. *)
Theorem prompt_mode_bypasses_early_skip (fuel : nat) (path : string)
    (args : Args) (w : world) (audio : vcomment) (artist title : string) :
  tagged w path audio artist title ->
  has_lrc path w = true \/ vc_contains "LYRICS" audio = true ->
  force args = false ->
  prompt args = true ->
  let r := process_file fuel path args w in
  w_requests (snd r) = (w_requests w ++ [(artist, title)])%list
  /\ (truthy (lyrics_for artist title w) = false ->
      r = (Ret (path, "not_found"), requested artist title w))
  /\ (truthy (lyrics_for artist title w) = true ->
      w_yes_to_all w = true ->
      r = write_stage path args (lyrics_for artist title w)
            (requested artist title w))
  /\ (truthy (lyrics_for artist title w) = true ->
      w_yes_to_all w = false ->
      (0 < fuel ->
       exists l,
         w_stdout (snd r)
         = (w_stdout w ++ prompt_text artist title :: l)%list)
      /\ (forall k line,
             rejects_next k w ->
             w_stdin w (w_stdin_pos w + k) = Some line ->
             normalise line = "n" ->
             k < fuel ->
             fst r = Ret (path, "skipped_prompt")
             /\ same_storage w (snd r)
             /\ w_stdin_pos (snd r) = S (w_stdin_pos w + k))).
Proof.
  intros Ht Hex Hf Hp r. subst r.
  rewrite (process_file_tagged _ _ _ _ _ _ _ Ht), process_tagged_run.
  rewrite Hp, andb_false_r.
  split; [|split; [|split]].
  - destruct (negb (truthy (lyrics_for artist title w)));
      [reflexivity|].
    rewrite prompt_stage_requests. reflexivity.
  - intros ->. reflexivity.
  - intros -> Hy. cbn [negb].
    apply prompt_stage_direct. cbn. rewrite Hy. apply andb_false_r.
  - intros Hfound Hy. rewrite Hfound. cbn [negb].
    assert (E : prompt args && negb (w_yes_to_all (requested artist title w))
                = true).
    { cbn. rewrite Hp, Hy. reflexivity. }
    split.
    + intros Hfuel. destruct fuel as [|fuel]; [lia|].
      apply (prompt_stage_shows_question fuel path args artist title
               (lyrics_for artist title w) (requested artist title w) E).
    + intros k line Hr Hl Hn Hk.
      rewrite prompt_stage_ask by exact E.
      destruct (prompt_loop_returns k fuel path artist title
                  (requested artist title w) line Hr Hl (accepted_n _ Hn) Hk)
        as (H1 & H2 & _).
      pose proof (prompt_loop_frame fuel path artist title
                    (requested artist title w)) as [Hs _].
      destruct (prompt_loop fuel path artist title
                  (requested artist title w)) as [o w1].
      cbn [fst snd] in H1, H2, Hs. subst o. unfold verdict. rewrite Hn.
      cbn [String.eqb Ascii.eqb Bool.eqb]. cbn match. cbn [fst snd].
      split; [reflexivity|]. split; [exact Hs|exact H2].
Qed.

Lemma prompt_mode_bypasses_early_skip_witness :
  let w := Sample.typing (fun n => match n with
                                   | 0 => Some "what"
                                   | _ => Some "N"
                                   end) Sample.w_sidecar in
  fst (process_file 2 "/m/a.flac" Sample.prompt_args w)
  = Ret ("/m/a.flac", "skipped_prompt")
  /\ same_storage w (snd (process_file 2 "/m/a.flac" Sample.prompt_args w))
  /\ w_stdin_pos (snd (process_file 2 "/m/a.flac" Sample.prompt_args w)) = 2.
Proof.
  intros w.
  refine (proj2 (proj2 (proj2 (proj2
            (prompt_mode_bypasses_early_skip 2 "/m/a.flac"
               Sample.prompt_args w Sample.tags_a "Foo" "Bar" _ _ _ _))) _ _)
            1 "N" _ _ _ _).
  - repeat split; try reflexivity; discriminate.
  - left. reflexivity.
  - reflexivity.
  - reflexivity.
  - reflexivity.
  - reflexivity.
  - intros i Hi. exists "what". replace i with 0 by lia. split; reflexivity.
  - reflexivity.
  - reflexivity.
  - lia.
Defined.

Lemma same_storage_refl w : same_storage w w.
Proof. split; reflexivity. Qed.

Lemma same_storage_trans w1 w2 w3 :
  same_storage w1 w2 -> same_storage w2 w3 -> same_storage w1 w3.
Proof. unfold same_storage. intuition congruence. Qed.

Lemma prompt_stage_dry_storage fuel path args artist title lyrics w :
  dry_run args = true ->
  same_storage w (snd (prompt_stage fuel path args artist title lyrics w)).
Proof.
  intros Hd.
  destruct (prompt args && negb (w_yes_to_all w)) eqn:E.
  - rewrite prompt_stage_ask by exact E.
    pose proof (prompt_loop_frame fuel path artist title w) as [Hs _].
    destruct (prompt_loop fuel path artist title w) as [[[s|]|e|] w'];
      cbn [snd] in Hs |- *; try exact Hs.
    rewrite write_stage_dry_run by exact Hd. exact Hs.
  - rewrite prompt_stage_direct by exact E.
    rewrite write_stage_dry_run by exact Hd. apply same_storage_refl.
Qed.

Lemma process_file_dry_storage fuel path args w :
  dry_run args = true ->
  same_storage w (snd (process_file fuel path args w)).
Proof.
  intros Hd. unfold process_file, bind at 1, try_except, bind at 1, FLAC.
  destruct (w_flacs w !! path) as [audio|]; [|apply same_storage_refl].
  cbn [ret].
  destruct (negb (truthy_str (vc_get_first "artist" audio))
            || negb (truthy_str (vc_get_first "title" audio)));
    [apply same_storage_refl|].
  destruct (vc_get_first "artist" audio) as [artist|];
    [|apply same_storage_refl].
  destruct (vc_get_first "title" audio) as [title|];
    [|apply same_storage_refl].
  rewrite process_tagged_run.
  destruct ((has_lrc path w || vc_contains "LYRICS" audio)
            && negb (force args) && negb (prompt args));
    [apply same_storage_refl|].
  destruct (negb (truthy (lyrics_for artist title w)));
    [split; reflexivity|].
  apply (same_storage_trans _ (requested artist title w));
    [split; reflexivity|].
  apply prompt_stage_dry_storage, Hd.
Qed.

(** The prompt stage once the write is confirmed: the write stage runs,
    after the loop where one was due. *)
Lemma prompt_stage_confirmed fuel k line path args artist title lyrics w :
  confirmed fuel k line args w ->
  exists w',
    prompt_stage fuel path args artist title lyrics w
    = write_stage path args lyrics w'
    /\ same_storage w w' /\ w_requests w' = w_requests w.
Proof.
  intros Hc.
  destruct (prompt args && negb (w_yes_to_all w)) eqn:E.
  - destruct (Hc E) as (Hr & Hl & Ha & Hn & Hk).
    rewrite prompt_stage_ask by exact E.
    pose proof (prompt_loop_returns k fuel path artist title w line
                  Hr Hl Ha Hk) as [H1 _].
    pose proof (prompt_loop_frame fuel path artist title w) as [Hs Hq].
    destruct (prompt_loop fuel path artist title w) as [o w'].
    cbn [fst snd] in H1, Hs, Hq. subst o. unfold verdict.
    destruct (String.eqb (normalise line) "n") eqn:En.
    { apply String.eqb_eq in En. contradiction. }
    exists w'. auto.
  - rewrite prompt_stage_direct by exact E.
    exists w. split; [reflexivity|]. split; [apply same_storage_refl|].
    reflexivity.
Qed.

(** C8. With [--dry-run] no file is processed with a write: the sidecars
    and the tag containers after [process_file] are those before it.  And
    for a file with its two tags that is not skipped early, whose lyrics
    are found and, in prompt mode, whose write is confirmed, the outcome is
    [dry_run]. *)
Theorem dry_run_writes_nothing (fuel : nat) (path : string) (args : Args)
    (w : world) :
  dry_run args = true ->
  same_storage w (snd (process_file fuel path args w))
  /\ (forall audio artist title k line,
         tagged w path audio artist title ->
         (has_lrc path w || vc_contains "LYRICS" audio)
           && negb (force args) && negb (prompt args) = false ->
         truthy (lyrics_for artist title w) = true ->
         confirmed fuel k line args (requested artist title w) ->
         fst (process_file fuel path args w) = Ret (path, "dry_run")).
Proof.
  intros Hd. split; [apply process_file_dry_storage, Hd|].
  intros audio artist title k line Ht Hskip Hfound Hc.
  rewrite (process_file_tagged _ _ _ _ _ _ _ Ht), process_tagged_run.
  rewrite Hskip, Hfound. cbn [negb].
  destruct (prompt_stage_confirmed fuel k line path args artist title
              (lyrics_for artist title w) _ Hc) as (w' & E & _).
  rewrite E, write_stage_dry_run by exact Hd. reflexivity.
Qed.

Lemma dry_run_writes_nothing_witness :
  same_storage Sample.w_hesitant
    (snd (process_file 2 "/m/a.flac" Sample.prompt_dry_args Sample.w_hesitant))
  /\ fst (process_file 2 "/m/a.flac" Sample.prompt_dry_args Sample.w_hesitant)
     = Ret ("/m/a.flac", "dry_run").
Proof.
  pose proof (dry_run_writes_nothing 2 "/m/a.flac" Sample.prompt_dry_args
                Sample.w_hesitant eq_refl) as [Hs Ho].
  split; [exact Hs|].
  apply (Ho Sample.tags_a "Foo" "Bar" 1 " Y").
  - repeat split; try reflexivity; discriminate.
  - reflexivity.
  - reflexivity.
  - intros _. split; [|repeat split; try reflexivity; try discriminate; lia].
    intros i Hi. exists "maybe".
    replace i with 0 by lia. split; reflexivity.
Defined.

(** ** Yes to all *)


Lemma accepted_y line : normalise line = "y" -> accepted line = true.
Proof. intros H. unfold accepted. rewrite H. reflexivity. Qed.






(** A whole run in prompt mode over the sample library: the user types a
    at the first question, the one line read; the second file is written
    unasked, the question is printed once. *)
Lemma yes_to_all_sample_run :
  fst (main 1 Sample.prompt_args Sample.w_all)
  = Ret ["/m/a.flac: updated"; "/m/sub/b.FLAC: updated"]
  /\ w_stdin_pos (snd (main 1 Sample.prompt_args Sample.w_all)) = 1
  /\ w_stdout (snd (main 1 Sample.prompt_args Sample.w_all))
     = ["Processing: /m/a.flac"; prompt_text "Foo" "Bar"; "  -> updated";
        "Processing: /m/sub/b.FLAC"; "  -> updated";
        summary_header; "/m/a.flac: updated"; "/m/sub/b.FLAC: updated"]
  /\ w_files (snd (main 1 Sample.prompt_args Sample.w_all))
       !! "/m/sub/b.lrc" = Some "plain text".
Proof. vm_compute. repeat split; reflexivity. Qed.



(** ** The embedded-lyrics test *)

Lemma vc_contains_spec key audio :
  vc_contains key audio = true
  <-> exists k v, In (k, v) audio /\ PyStr.lower k = PyStr.lower key.
Proof.
  unfold vc_contains. rewrite existsb_exists. split.
  - intros [[k v] [Hin Hk]]. exists k, v. split; [exact Hin|].
    apply String.eqb_eq. exact Hk.
  - intros (k & v & Hin & Hk). exists (k, v). split; [exact Hin|].
    apply String.eqb_eq. exact Hk.
Qed.

Lemma embed_lyrics_flac_present path lyrics w audio :
  w_flacs w !! path = Some audio ->
  vc_contains "LYRICS" audio = true ->
  embed_lyrics_flac path lyrics false w = (Ret false, w).
Proof.
  intros Hf Hc. unfold embed_lyrics_flac, try_except, bind, FLAC.
  rewrite Hf, Hc. reflexivity.
Qed.

Lemma embed_lyrics_flac_absent path s w audio :
  w_flacs w !! path = Some audio ->
  vc_contains "LYRICS" audio = false ->
  w_save_fails w path = false ->
  embed_lyrics_flac path (PStr s) false w
  = (Ret true, set_flacs (<[path := with_lyrics s audio]> (w_flacs w)) w).
Proof.
  intros Hf Hc Hs.
  unfold embed_lyrics_flac, try_except, bind, FLAC, flac_set_and_save.
  rewrite Hf, Hc. cbn [andb vc_setitem all_str]. rewrite Hs. reflexivity.
Qed.

(** What refutes C3 as the specification words it: a container whose
    [LYRICS] comment is there with an empty value counts as having lyrics.
    The file is skipped early without a request, and the embedded write
    without [--force] answers "not written" and leaves the world alone. *)
Lemma empty_lyrics_count_as_present :
  vc_values "LYRICS" Sample.tags_empty_lyrics = [EmptyString]
  /\ vc_contains "LYRICS" Sample.tags_empty_lyrics = true
  /\ process_file 0 "/m/a.flac" Sample.plain_args Sample.w_empty_lyrics
     = (Ret ("/m/a.flac", "skipped_existing"), Sample.w_empty_lyrics)
  /\ embed_lyrics_flac "/m/a.flac" (PStr Sample.synced) false
       Sample.w_empty_lyrics
     = (Ret false, Sample.w_empty_lyrics).
Proof. repeat split; reflexivity. Qed.

(** C3, amended. The test the tag reader and the embedded-write gate
    share is the presence of the key: the lyrics field exists as soon as
    some comment has the key [LYRICS] (whatever the case of its letters),
    whatever its value, the empty one included.  For such a file the early
    skip applies when neither [--force] nor [--prompt] is given, and the
    embedded write without [--force] answers "not written"; the write goes
    ahead, when the save succeeds, for a file with no such comment. *)
Theorem lyrics_presence_is_key_presence (fuel : nat) (path : string)
    (args : Args) (w : world) (audio : vcomment) (artist title : string) :
  w_flacs w !! path = Some audio ->
  (vc_contains "LYRICS" audio = true
   <-> exists k v, In (k, v) audio /\ PyStr.lower k = "lyrics")
  /\ (vc_contains "LYRICS" audio = true ->
      (forall lyrics,
          embed_lyrics_flac path lyrics false w = (Ret false, w))
      /\ (force args = false -> prompt args = false ->
          process_tagged fuel path args audio artist title w
          = (Ret (path, "skipped_existing"), w)))
  /\ (vc_contains "LYRICS" audio = false ->
      w_save_fails w path = false ->
      forall s,
        embed_lyrics_flac path (PStr s) false w
        = (Ret true,
           set_flacs (<[path := with_lyrics s audio]> (w_flacs w)) w)).
Proof.
  intros Hf. split; [|split].
  - apply (vc_contains_spec "LYRICS" audio).
  - intros Hc. split.
    + intros lyrics. apply (embed_lyrics_flac_present _ _ _ _ Hf Hc).
    + intros Hfo Hp. rewrite process_tagged_run, Hc, Hfo, Hp, orb_true_r.
      reflexivity.
  - intros Hc Hs s. apply (embed_lyrics_flac_absent _ _ _ _ Hf Hc Hs).
Qed.

Lemma lyrics_presence_is_key_presence_witness :
  embed_lyrics_flac "/m/a.flac" (PStr Sample.synced) false
    Sample.w_empty_lyrics
  = (Ret false, Sample.w_empty_lyrics)
  /\ embed_lyrics_flac "/m/a.flac" (PStr Sample.synced) false Sample.w0
     = (Ret true,
        set_flacs (<["/m/a.flac" := with_lyrics Sample.synced Sample.tags_a]>
                     (w_flacs Sample.w0)) Sample.w0).
Proof.
  split.
  - apply (proj1 (proj2 (lyrics_presence_is_key_presence 0 "/m/a.flac"
             Sample.plain_args Sample.w_empty_lyrics
             Sample.tags_empty_lyrics "Foo" "Bar" eq_refl))).
    reflexivity.
  - apply (proj2 (proj2 (lyrics_presence_is_key_presence 0 "/m/a.flac"
             Sample.plain_args Sample.w0 Sample.tags_a "Foo" "Bar"
             eq_refl))); reflexivity.
Defined.

(** ** The two writers *)

(** The embedded write always returns. *)
Lemma embed_lyrics_flac_returns path lyrics frc w :
  exists b, fst (embed_lyrics_flac path lyrics frc w) = Ret b.
Proof.
  unfold embed_lyrics_flac, try_except, bind, FLAC, flac_set_and_save.
  run_all; eauto.
Qed.

(** When the sidecar write returns, the embedded write is made next and
    the outcome is [updated] exactly when one of the two wrote. *)
Lemma write_stage_after_sidecar path args lyrics w wrote_file w1 :
  dry_run args = false ->
  write_lrc_file path lyrics (force args) w = (Ret wrote_file, w1) ->
  exists wrote_tag,
    fst (embed_lyrics_flac path lyrics (force args) w1) = Ret wrote_tag
    /\ write_stage path args lyrics w
       = (Ret (path, if wrote_file || wrote_tag then "updated"
                     else "skipped_existing"),
          snd (embed_lyrics_flac path lyrics (force args) w1)).
Proof.
  intros Hd Hw.
  destruct (embed_lyrics_flac_returns path lyrics (force args) w1)
    as [b Hb].
  exists b. split; [exact Hb|].
  unfold write_stage. rewrite Hd. unfold bind. rewrite Hw.
  destruct (embed_lyrics_flac path lyrics (force args) w1) as [o w2].
  cbn [fst snd] in Hb |- *. subst o.
  destruct (wrote_file || b); reflexivity.
Qed.

(** When [open] fails on the sidecar path, [write_lrc_file] raises and
    the write stage ends there, the embedded write not made. *)
Lemma write_stage_sidecar_raises path args lyrics w :
  dry_run args = false ->
  has_lrc path w && negb (force args) = false ->
  w_open_fails w (lrc_path_of path) = true ->
  write_lrc_file path lyrics (force args) w = (Raise OSError, w)
  /\ write_stage path args lyrics w = (Raise OSError, w).
Proof.
  intros Hd Hex Ho.
  assert (E : write_lrc_file path lyrics (force args) w = (Raise OSError, w)).
  { unfold write_lrc_file, bind, os_path_exists. fold (has_lrc path w).
    rewrite Hex. unfold open_write. rewrite Ho. reflexivity. }
  split; [exact E|].
  unfold write_stage. rewrite Hd. unfold bind. rewrite E. reflexivity.
Qed.

(** C2, on the code. On a medium where the sidecar cannot be opened for
    writing, the [OSError] of [open] leaves [write_lrc_file] uncaught,
    leaves [process_file] and leaves [main]: the run ends with exit status
    1 after the first file, whose container is as it was (the embedded
    write was not made), and the second file is not reached (one request
    only). *)
Theorem sidecar_oserror_aborts_run :
  let w := Sample.read_only_dirs Sample.w0 in
  write_lrc_file "/m/a.flac" (PStr Sample.synced) false w = (Raise OSError, w)
  /\ fst (process_file 0 "/m/a.flac" Sample.plain_args w) = Raise OSError
  /\ w_flacs (snd (process_file 0 "/m/a.flac" Sample.plain_args w))
     = w_flacs w
  /\ fst (main 0 Sample.plain_args w) = Raise OSError
  /\ exit_status (fst (main 0 Sample.plain_args w)) = Some 1%Z
  /\ w_requests (snd (main 0 Sample.plain_args w)) = [("Foo", "Bar")].
Proof. vm_compute. repeat split; reflexivity. Qed.

(** C9, on the code. With the same medium the two writes are not made
    independently: the embedded write, made alone, succeeds, yet
    [process_file] ends in the [OSError] of the sidecar write, with neither
    [updated] nor [skipped_existing] and with the [LYRICS] comment not
    set. *)
Theorem sidecar_failure_blocks_embedded_write :
  let w := Sample.read_only_dirs Sample.w0 in
  fst (embed_lyrics_flac "/m/a.flac" (PStr Sample.synced) false
         (requested "Foo" "Bar" w)) = Ret true
  /\ fst (process_file 0 "/m/a.flac" Sample.plain_args w) = Raise OSError
  /\ vc_contains "LYRICS"
       (default [] (w_flacs (snd (process_file 0 "/m/a.flac"
                                    Sample.plain_args w)) !! "/m/a.flac"))
     = false.
Proof. vm_compute. repeat split; reflexivity. Qed.

(** * Further properties of the script *)

(** ** Relations kept by composition *)

Section Preserves.

Variable R : world -> world -> Prop.
Hypothesis R_refl : forall w, R w w.
Hypothesis R_trans : forall w1 w2 w3, R w1 w2 -> R w2 w3 -> R w1 w3.

Lemma preserves_ret {A} (a : A) : preserves R (ret a).
Proof. intros w. apply R_refl. Qed.

Lemma preserves_raise {A} (e : exn) : preserves R (@raise A e).
Proof. intros w. apply R_refl. Qed.

Lemma preserves_bind {A B} (m : M A) (k : A -> M B) :
  preserves R m -> (forall a, preserves R (k a)) -> preserves R (bind m k).
Proof.
  intros Hm Hk w. unfold bind. specialize (Hm w).
  destruct (m w) as [[a|e|] w1]; cbn [snd] in *; try exact Hm.
  apply (R_trans _ w1); [exact Hm|]. apply Hk.
Qed.

Lemma preserves_try {A} (m : M A) (h : exn -> M A) :
  preserves R m -> (forall e, preserves R (h e)) ->
  preserves R (try_except m h).
Proof.
  intros Hm Hh w. unfold try_except. specialize (Hm w).
  destruct (m w) as [[a|e|] w1]; cbn [snd] in *; try exact Hm.
  apply (R_trans _ w1); [exact Hm|]. apply Hh.
Qed.

Lemma preserves_if {A} (b : bool) (m1 m2 : M A) :
  preserves R m1 -> preserves R m2 -> preserves R (if b then m1 else m2).
Proof. destruct b; auto. Qed.

End Preserves.

Lemma same_env_refl w : same_env w w.
Proof. repeat split. Qed.

Lemma same_env_trans w1 w2 w3 :
  same_env w1 w2 -> same_env w2 w3 -> same_env w1 w3.
Proof. unfold same_env. intuition congruence. Qed.





Lemma harmless_env w w' : harmless w w' -> same_env w w'.
Proof. intros [H _]. exact H. Qed.



Lemma harmless_intro w w' :
  w_scandir w' = w_scandir w -> w_lrclib w' = w_lrclib w ->
  w_stdin w' = w_stdin w -> w_open_fails w' = w_open_fails w ->
  w_save_fails w' = w_save_fails w -> w_now w' = w_now w ->
  w_files w' = w_files w -> w_flacs w' = w_flacs w -> harmless w w'.
Proof. intros. repeat split; assumption. Qed.

Ltac harmless_now :=
  intros; repeat branch; cbn [fst snd]; apply harmless_intro; reflexivity.

Lemma print_harmless s w : harmless w (snd (print s w)).
Proof. unfold print. harmless_now. Qed.

Lemma input_harmless s w : harmless w (snd (input s w)).
Proof. unfold input. cbn zeta. harmless_now. Qed.

Lemma os_path_exists_harmless p w : harmless w (snd (os_path_exists p w)).
Proof. unfold os_path_exists. harmless_now. Qed.

Lemma fetch_lyrics_harmless artist title w :
  harmless w (snd (fetch_lyrics artist title w)).
Proof. rewrite fetch_lyrics_run. harmless_now. Qed.

Lemma get_yes_to_all_harmless w : harmless w (snd (get_yes_to_all w)).
Proof. unfold get_yes_to_all. harmless_now. Qed.

Lemma put_yes_to_all_harmless b w : harmless w (snd (put_yes_to_all b w)).
Proof. unfold put_yes_to_all. harmless_now. Qed.

Lemma FLAC_harmless p w : harmless w (snd (FLAC p w)).
Proof. unfold FLAC. harmless_now. Qed.

Lemma harmless_refl w : harmless w w.
Proof. apply harmless_intro; reflexivity. Qed.

Lemma harmless_trans w1 w2 w3 :
  harmless w1 w2 -> harmless w2 w3 -> harmless w1 w3.
Proof.
  intros [E1 [F1 G1]] [E2 [F2 G2]]. split.
  - eapply same_env_trans; eassumption.
  - split; congruence.
Qed.

Lemma prompt_loop_harmless fuel path artist title :
  preserves harmless (prompt_loop fuel path artist title).
Proof.
  induction fuel as [|fuel IH]; intros w.
  { apply harmless_refl. }
  rewrite prompt_loop_step.
  destruct (w_stdin w (w_stdin_pos w)) as [line|]; [|harmless_now].
  cbn zeta.
  destruct (String.eqb (normalise line) "a"); [harmless_now|].
  destruct (String.eqb (normalise line) "y"); [harmless_now|].
  destruct (String.eqb (normalise line) "n"); [harmless_now|].
  apply (harmless_trans _ (reprompted artist title w)); [harmless_now|].
  apply IH.
Qed.

(** ** A relation kept by every harmless step and by the write stage is
    kept by the whole run of the loop *)

Section Lifting.

Variable R : world -> world -> Prop.
Hypothesis R_refl : forall w, R w w.
Hypothesis R_trans : forall w1 w2 w3, R w1 w2 -> R w2 w3 -> R w1 w3.
Hypothesis R_harmless : forall w w', harmless w w' -> R w w'.
Variable args : Args.
Hypothesis R_write_stage :
  forall path lyrics, preserves R (write_stage path args lyrics).

Lemma prompt_stage_lift fuel path artist title lyrics :
  preserves R (prompt_stage fuel path args artist title lyrics).
Proof.
  unfold prompt_stage.
  apply (preserves_bind R R_trans).
  { intros w. apply R_harmless, get_yes_to_all_harmless. }
  intros yes. apply preserves_if; [|apply R_write_stage].
  apply (preserves_bind R R_trans).
  { intros w. apply R_harmless, prompt_loop_harmless. }
  intros [status|]; [apply (preserves_ret R R_refl)|apply R_write_stage].
Qed.

Lemma process_tagged_lift fuel path audio artist title :
  preserves R (process_tagged fuel path args audio artist title).
Proof.
  unfold process_tagged.
  apply (preserves_bind R R_trans).
  { intros w. apply R_harmless, os_path_exists_harmless. }
  intros has. apply preserves_if; [apply (preserves_ret R R_refl)|].
  apply (preserves_bind R R_trans).
  { intros w. apply R_harmless, fetch_lyrics_harmless. }
  intros lyrics. apply preserves_if; [apply (preserves_ret R R_refl)|].
  apply prompt_stage_lift.
Qed.

Lemma process_file_lift fuel path :
  preserves R (process_file fuel path args).
Proof.
  unfold process_file.
  apply (preserves_bind R R_trans).
  { apply (preserves_try R R_trans).
    - apply (preserves_bind R R_trans).
      + intros w. apply R_harmless, FLAC_harmless.
      + intros a. apply (preserves_ret R R_refl).
    - intros e. apply (preserves_ret R R_refl). }
  intros [audio|]; [|apply (preserves_ret R R_refl)].
  apply preserves_if; [apply (preserves_ret R R_refl)|].
  destruct (vc_get_first "artist" audio) as [artist|];
    [|apply (preserves_ret R R_refl)].
  destruct (vc_get_first "title" audio) as [title|];
    [|apply (preserves_ret R R_refl)].
  apply process_tagged_lift.
Qed.

Lemma for_files_lift fuel root files :
  forall log_lines, preserves R (for_files fuel args root files log_lines).
Proof.
  induction files as [|f rest IH]; intros log_lines.
  { apply (preserves_ret R R_refl). }
  cbn [for_files]. apply preserves_if; [|apply IH].
  apply (preserves_bind R R_trans).
  { intros w. apply R_harmless, print_harmless. }
  intros _. apply (preserves_bind R R_trans).
  { apply process_file_lift. }
  intros status. apply (preserves_bind R R_trans).
  { intros w. apply R_harmless, print_harmless. }
  intros _. apply IH.
Qed.

Lemma for_walk_lift fuel walk :
  forall log_lines, preserves R (for_walk fuel args walk log_lines).
Proof.
  induction walk as [|[[root dirs] files] rest IH]; intros log_lines.
  { apply (preserves_ret R R_refl). }
  cbn [for_walk]. apply (preserves_bind R R_trans).
  { apply for_files_lift. }
  intros log'. apply IH.
Qed.

End Lifting.

(** ** The sidecar writer *)

Lemma write_lrc_file_run path lyrics frc w :
  write_lrc_file path lyrics frc w
  = if has_lrc path w && negb frc then (Ret false, w)
    else if w_open_fails w (lrc_path_of path) then (Raise OSError, w)
    else match lyrics with
         | PStr s => (Ret true, write_text (lrc_path_of path) s w)
         | _ => (Raise TypeError, write_text (lrc_path_of path) EmptyString w)
         end.
Proof.
  unfold write_lrc_file, bind, os_path_exists. fold (has_lrc path w).
  destruct (has_lrc path w && negb frc); [reflexivity|].
  unfold open_write.
  destruct (w_open_fails w (lrc_path_of path)); [reflexivity|].
  destruct lyrics; reflexivity.
Qed.


Lemma has_lrc_written path s w :
  has_lrc path (write_text (lrc_path_of path) s w) = true.
Proof.
  unfold has_lrc, path_exists. apply orb_true_intro. left.
  apply bool_decide_eq_true. cbn. rewrite lookup_insert_eq. eauto.
Qed.

Lemma has_lrc_files path w w' :
  w_files w' = w_files w -> has_lrc path w = true ->
  (forall audio, w_flacs w !! lrc_path_of path = Some audio ->
                 is_Some (w_flacs w' !! lrc_path_of path)) ->
  has_lrc path w' = true.
Proof.
  unfold has_lrc, path_exists. intros Hf H Hk.
  apply orb_true_iff in H as [H | H]; apply bool_decide_eq_true in H.
  - apply orb_true_intro. left. apply bool_decide_eq_true.
    rewrite Hf. exact H.
  - apply orb_true_intro. right. apply bool_decide_eq_true.
    destruct H as [a Ha]. apply (Hk a Ha).
Qed.

Lemma write_lrc_file_env path lyrics frc :
  preserves same_env (write_lrc_file path lyrics frc).
Proof.
  intros w. rewrite write_lrc_file_run.
  repeat branch; cbn [snd]; repeat split.
Qed.


(** ** The tag writer *)

Lemma embed_lyrics_flac_run path lyrics frc w :
  embed_lyrics_flac path lyrics frc w
  = match w_flacs w !! path with
    | None => (Ret false, w)
    | Some audio =>
        if vc_contains "LYRICS" audio && negb frc then (Ret false, w)
        else match vc_setitem "LYRICS" lyrics audio with
             | None => (Ret false, w)
             | Some t =>
                 if w_save_fails w path then (Ret false, w)
                 else (Ret true, set_flacs (<[path := t]> (w_flacs w)) w)
             end
    end.
Proof.
  unfold embed_lyrics_flac, try_except, bind, FLAC, flac_set_and_save.
  destruct (w_flacs w !! path) as [audio|]; [|reflexivity].
  destruct (vc_contains "LYRICS" audio && negb frc); [reflexivity|].
  destruct (vc_setitem "LYRICS" lyrics audio); [|reflexivity].
  destruct (w_save_fails w path); reflexivity.
Qed.

Lemma embed_lyrics_flac_env path lyrics frc :
  preserves same_env (embed_lyrics_flac path lyrics frc).
Proof.
  intros w. rewrite embed_lyrics_flac_run.
  repeat branch; cbn [snd]; repeat split.
Qed.





Lemma write_stage_env path args lyrics :
  preserves same_env (write_stage path args lyrics).
Proof.
  unfold write_stage. apply preserves_if.
  { apply (preserves_ret _ same_env_refl). }
  apply (preserves_bind _ same_env_trans); [apply write_lrc_file_env|].
  intros wf. apply (preserves_bind _ same_env_trans);
    [apply embed_lyrics_flac_env|].
  intros wt. apply preserves_if; apply (preserves_ret _ same_env_refl).
Qed.



(** ** What the writers do *)

(** X1. Where the sidecar is absent or [--force] is given, and [open]
    succeeds, [write_lrc_file] returns [True], the sidecar holds exactly
    the lyrics, no other file is touched, and a second call without
    [--force] returns [False] and changes nothing. *)
Theorem write_lrc_file_writes_once (path s s' : string) (frc : bool)
    (w : world) :
  has_lrc path w = false \/ frc = true ->
  w_open_fails w (lrc_path_of path) = false ->
  let r := write_lrc_file path (PStr s) frc w in
  fst r = Ret true
  /\ w_files (snd r) !! lrc_path_of path = Some s
  /\ (forall p, p <> lrc_path_of path ->
        w_files (snd r) !! p = w_files w !! p)
  /\ write_lrc_file path (PStr s') false (snd r) = (Ret false, snd r).
Proof.
  intros Hex Ho r. subst r. rewrite write_lrc_file_run.
  replace (has_lrc path w && negb frc) with false
    by (destruct Hex as [-> | ->]; [reflexivity|symmetry; apply andb_false_r]).
  rewrite Ho. cbn [fst snd].
  split; [reflexivity|]. split; [apply lookup_insert_eq|].
  split; [intros p Hp; cbn; apply lookup_insert_ne; congruence|].
  rewrite write_lrc_file_run, has_lrc_written. reflexivity.
Qed.

Lemma write_lrc_file_writes_once_witness :
  let r := write_lrc_file "/m/a.flac" (PStr "new words") true Sample.w_sidecar in
  fst r = Ret true
  /\ w_files (snd r) !! "/m/a.lrc" = Some "new words".
Proof.
  intros r.
  destruct (write_lrc_file_writes_once "/m/a.flac" "new words" "later"
              true Sample.w_sidecar (or_intror eq_refl) eq_refl)
    as (H1 & H2 & _).
  split; [exact H1|exact H2].
Defined.

(** X2. [embed_lyrics_flac] never raises: it returns a boolean whatever
    the container, the lyrics and the save do; and when it returns [False]
    the world is as it was. *)
Theorem embed_lyrics_flac_total (path : string) (lyrics : pyval)
    (frc : bool) (w : world) :
  exists b,
    fst (embed_lyrics_flac path lyrics frc w) = Ret b
    /\ (b = false -> snd (embed_lyrics_flac path lyrics frc w) = w).
Proof.
  rewrite embed_lyrics_flac_run.
  destruct (w_flacs w !! path) as [audio|]; [|exists false; auto].
  destruct (vc_contains "LYRICS" audio && negb frc); [exists false; auto|].
  destruct (vc_setitem "LYRICS" lyrics audio); [|exists false; auto].
  destruct (w_save_fails w path); [exists false; auto|].
  exists true. split; [reflexivity|discriminate].
Qed.

Lemma filter_same_key_after_removal key key' (audio : vcomment) :
  PyStr.lower key <> PyStr.lower key' ->
  List.filter (vc_same_key key)
    (List.filter (fun kv => negb (vc_same_key key' kv)) audio)
  = List.filter (vc_same_key key) audio.
Proof.
  intros Hne. induction audio as [|kv rest IH]; [reflexivity|].
  cbn [List.filter].
  destruct (vc_same_key key' kv) eqn:E'; cbn [negb List.filter].
  - destruct (vc_same_key key kv) eqn:E; [|exact IH].
    exfalso. apply Hne. unfold vc_same_key in E, E'.
    apply String.eqb_eq in E, E'. congruence.
  - destruct (vc_same_key key kv); [rewrite IH|]; auto.
Qed.

Lemma filter_removed_key key (audio : vcomment) :
  List.filter (vc_same_key key)
    (List.filter (fun kv => negb (vc_same_key key kv)) audio) = [].
Proof.
  induction audio as [|kv rest IH]; [reflexivity|].
  cbn [List.filter].
  destruct (vc_same_key key kv) eqn:E; cbn [negb List.filter]; [exact IH|].
  rewrite E. exact IH.
Qed.

Lemma with_lyrics_values s audio :
  vc_values "LYRICS" (with_lyrics s audio) = [s].
Proof.
  unfold vc_values, with_lyrics.
  rewrite List.filter_app, filter_removed_key.
  reflexivity.
Qed.

Lemma with_lyrics_other key s audio :
  PyStr.lower key <> "lyrics" ->
  vc_values key (with_lyrics s audio) = vc_values key audio.
Proof.
  intros Hne. unfold vc_values, with_lyrics. rewrite List.filter_app.
  rewrite filter_same_key_after_removal by exact Hne.
  cbn [List.filter]. unfold vc_same_key at 2. cbn [fst].
  destruct (String.eqb (PyStr.lower "LYRICS") (PyStr.lower key)) eqn:E.
  - apply String.eqb_eq in E. exfalso. apply Hne. symmetry. exact E.
  - rewrite app_nil_r. reflexivity.
Qed.

(** X3. When [embed_lyrics_flac] returns [True] for a string, the
    container it read had no [LYRICS] comment or [--force] was given; the
    saved container has [LYRICS] with that one value, every other key has
    the values it had, and no other container is touched. *)
Theorem embed_lyrics_flac_sets_one_value (path s : string) (frc : bool)
    (w : world) :
  fst (embed_lyrics_flac path (PStr s) frc w) = Ret true ->
  exists audio,
    w_flacs w !! path = Some audio
    /\ (frc = true \/ vc_contains "LYRICS" audio = false)
    /\ w_flacs (snd (embed_lyrics_flac path (PStr s) frc w)) !! path
       = Some (with_lyrics s audio)
    /\ vc_values "LYRICS" (with_lyrics s audio) = [s]
    /\ (forall key, PyStr.lower key <> "lyrics" ->
          vc_values key (with_lyrics s audio) = vc_values key audio)
    /\ (forall p, p <> path ->
          w_flacs (snd (embed_lyrics_flac path (PStr s) frc w)) !! p
          = w_flacs w !! p).
Proof.
  rewrite embed_lyrics_flac_run.
  destruct (w_flacs w !! path) as [audio|] eqn:Hf; [|discriminate].
  destruct (vc_contains "LYRICS" audio && negb frc) eqn:Hc; [discriminate|].
  cbn [vc_setitem all_str].
  destruct (w_save_fails w path); [discriminate|].
  intros _. exists audio. split; [reflexivity|].
  split.
  { destruct frc; [left; reflexivity|right].
    rewrite andb_true_r in Hc. exact Hc. }
  cbn [snd]. split; [apply lookup_insert_eq|].
  split; [apply with_lyrics_values|].
  split; [intros key Hk; apply with_lyrics_other, Hk|].
  intros p Hp. cbn. apply lookup_insert_ne. congruence.
Qed.

Lemma embed_lyrics_flac_sets_one_value_witness :
  exists audio,
    w_flacs Sample.w_empty_lyrics !! "/m/a.flac" = Some audio
    /\ w_flacs (snd (embed_lyrics_flac "/m/a.flac" (PStr Sample.synced) true
                       Sample.w_empty_lyrics)) !! "/m/a.flac"
       = Some (with_lyrics Sample.synced audio).
Proof.
  destruct (embed_lyrics_flac_sets_one_value "/m/a.flac" Sample.synced true
              Sample.w_empty_lyrics eq_refl) as (audio & H1 & _ & H3 & _).
  exists audio. split; [exact H1|exact H3].
Defined.

(** ** One file, case by case *)

Lemma process_file_run fuel path args w :
  process_file fuel path args w
  = match w_flacs w !! path with
    | None => (Ret (path, "error"), w)
    | Some audio =>
        if negb (truthy_str (vc_get_first "artist" audio))
           || negb (truthy_str (vc_get_first "title" audio))
        then (Ret (path, "missing_tags"), w)
        else
          match vc_get_first "artist" audio, vc_get_first "title" audio with
          | Some artist, Some title =>
              process_tagged fuel path args audio artist title w
          | _, _ => (Ret (path, "missing_tags"), w)
          end
    end.
Proof.
  unfold process_file, bind at 1, try_except, bind at 1, FLAC.
  destruct (w_flacs w !! path) as [audio|]; [|reflexivity].
  cbn [ret].
  destruct (negb (truthy_str (vc_get_first "artist" audio))
            || negb (truthy_str (vc_get_first "title" audio)));
    [reflexivity|].
  destruct (vc_get_first "artist" audio); [|reflexivity].
  destruct (vc_get_first "title" audio); reflexivity.
Qed.

Lemma truthy_str_true o :
  truthy_str o = true -> exists s, o = Some s /\ s <> EmptyString.
Proof.
  destruct o as [s|]; [|discriminate]. cbn. intros H. exists s.
  split; [reflexivity|]. intros ->. discriminate H.
Qed.

(** The three ways [process_file] starts. *)
Lemma process_file_cases fuel path args w :
  (w_flacs w !! path = None
   /\ process_file fuel path args w = (Ret (path, "error"), w))
  \/ (exists audio,
        w_flacs w !! path = Some audio
        /\ (truthy_str (vc_get_first "artist" audio) = false
            \/ truthy_str (vc_get_first "title" audio) = false)
        /\ process_file fuel path args w = (Ret (path, "missing_tags"), w))
  \/ (exists audio artist title,
        tagged w path audio artist title
        /\ process_file fuel path args w
           = process_tagged fuel path args audio artist title w).
Proof.
  rewrite process_file_run.
  destruct (w_flacs w !! path) as [audio|] eqn:Hf; [|left; auto].
  right.
  destruct (truthy_str (vc_get_first "artist" audio)) eqn:Ha.
  2:{ left. exists audio. auto. }
  destruct (truthy_str (vc_get_first "title" audio)) eqn:Ht.
  2:{ left. exists audio. auto. }
  right. apply truthy_str_true in Ha as (artist & Ea & Hna).
  apply truthy_str_true in Ht as (title & Et & Hnt).
  exists audio, artist, title. rewrite Ea, Et. cbn [negb orb].
  split; [|reflexivity]. repeat split; assumption.
Qed.

(** X4. A file whose container parses but has no artist or no title, or
    an empty one, is answered [missing_tags] with the world untouched: no
    request is sent and nothing is asked or written. *)
Theorem missing_tags_without_request (fuel : nat) (path : string)
    (args : Args) (w : world) (audio : vcomment) :
  w_flacs w !! path = Some audio ->
  truthy_str (vc_get_first "artist" audio) = false
  \/ truthy_str (vc_get_first "title" audio) = false ->
  process_file fuel path args w = (Ret (path, "missing_tags"), w).
Proof.
  intros Hf Hm. rewrite process_file_run, Hf.
  destruct Hm as [-> | ->]; cbn [negb orb]; [reflexivity|].
  rewrite orb_true_r. reflexivity.
Qed.

Lemma missing_tags_without_request_witness :
  process_file 0 "/m/untitled.flac" Sample.prompt_args Sample.w_odd
  = (Ret ("/m/untitled.flac", "missing_tags"), Sample.w_odd).
Proof.
  apply (missing_tags_without_request 0 "/m/untitled.flac"
           Sample.prompt_args Sample.w_odd [("artist", "Foo")]).
  - reflexivity.
  - right. reflexivity.
Defined.

(** How the write stage can end. *)
Lemma write_stage_ends path args lyrics w :
  match fst (write_stage path args lyrics w) with
  | Ret (p, s) =>
      p = path
      /\ (s = "dry_run" /\ dry_run args = true
          \/ (s = "updated" \/ s = "skipped_existing")
             /\ dry_run args = false)
  | Raise e =>
      dry_run args = false
      /\ (e = OSError /\ w_open_fails w (lrc_path_of path) = true
          \/ e = TypeError /\ forall s, lyrics <> PStr s)
  | OutOfFuel => False
  end.
Proof.
  unfold write_stage. destruct (dry_run args).
  { cbn. auto. }
  unfold bind. rewrite write_lrc_file_run.
  destruct (has_lrc path w && negb (force args)).
  - destruct (embed_lyrics_flac_returns path lyrics (force args) w)
      as (b & Hb).
    destruct (embed_lyrics_flac path lyrics (force args) w) as [o w2].
    cbn [fst] in Hb. subst o. cbn [orb]. destruct b; cbn; auto.
  - destruct (w_open_fails w (lrc_path_of path)) eqn:Ho.
    { cbn. auto. }
    destruct lyrics;
      try (cbn; split; [reflexivity|right; split; [reflexivity|]];
           intros s0; discriminate).
    match goal with |- context [embed_lyrics_flac ?p ?l ?f ?w1] =>
      destruct (embed_lyrics_flac_returns p l f w1) as (b & Hb);
      destruct (embed_lyrics_flac p l f w1) as [o w2] end.
    cbn [fst] in Hb. subst o. cbn. auto.
Qed.

(** How the prompt loop can end. *)
Lemma prompt_loop_ends fuel : forall path artist title w,
  match fst (prompt_loop fuel path artist title w) with
  | Ret (Some status) => status = (path, "skipped_prompt")
  | Ret None => True
  | Raise e => e = EOFError
  | OutOfFuel => True
  end.
Proof.
  induction fuel as [|fuel IH]; intros path artist title w.
  { exact I. }
  rewrite prompt_loop_step.
  destruct (w_stdin w (w_stdin_pos w)) as [line|]; [|reflexivity].
  cbn zeta.
  destruct (String.eqb (normalise line) "a"); [exact I|].
  destruct (String.eqb (normalise line) "y"); [exact I|].
  destruct (String.eqb (normalise line) "n"); [reflexivity|].
  apply IH.
Qed.

Lemma prompt_stage_ends fuel path args artist title lyrics w :
  match fst (prompt_stage fuel path args artist title lyrics w) with
  | Ret (p, s) =>
      p = path
      /\ (s = "skipped_prompt" \/ s = "dry_run" \/ s = "updated"
          \/ s = "skipped_existing")
  | Raise e =>
      e = EOFError /\ prompt args = true /\ w_yes_to_all w = false
      \/ dry_run args = false
         /\ (e = OSError /\ w_open_fails w (lrc_path_of path) = true
             \/ e = TypeError /\ forall s, lyrics <> PStr s)
  | OutOfFuel => prompt args = true /\ w_yes_to_all w = false
  end.
Proof.
  destruct (prompt args && negb (w_yes_to_all w)) eqn:E.
  - apply andb_true_iff in E as [Hp Hy]. apply negb_true_iff in Hy.
    rewrite prompt_stage_ask by (rewrite Hp, Hy; reflexivity).
    pose proof (prompt_loop_ends fuel path artist title w) as He.
    pose proof (prompt_loop_harmless fuel path artist title w) as [Henv _].
    destruct (prompt_loop fuel path artist title w) as [[[st|]|e|] w'];
      cbn [fst snd] in He, Henv |- *.
    + subst st. auto.
    + pose proof (write_stage_ends path args lyrics w') as Hw.
      destruct (fst (write_stage path args lyrics w')) as [[p s]|e|].
      * destruct Hw as [-> [[-> _] | [[-> | ->] _]]]; auto 6.
      * right. destruct Hw as [Hd Hw]. split; [exact Hd|].
        destruct Henv as (_ & _ & _ & Ho & _). rewrite Ho in Hw. exact Hw.
      * contradiction.
    + left. auto.
    + auto.
  - rewrite prompt_stage_direct by exact E.
    pose proof (write_stage_ends path args lyrics w) as Hw.
    destruct (fst (write_stage path args lyrics w)) as [[p s]|e|].
    + destruct Hw as [-> [[-> _] | [[-> | ->] _]]]; auto 6.
    + right. exact Hw.
    + contradiction.
Qed.

Lemma process_file_ends_aux (fuel : nat) (path : string) (args : Args)
    (w : world) :
  match fst (process_file fuel path args w) with
  | Ret (p, s) => p = path /\ In s outcomes
  | Raise e =>
      e = EOFError /\ prompt args = true /\ w_yes_to_all w = false
      \/ dry_run args = false
         /\ (e = OSError /\ w_open_fails w (lrc_path_of path) = true
             \/ e = TypeError
                /\ exists artist title,
                     truthy (lyrics_for artist title w) = true
                     /\ forall s, lyrics_for artist title w <> PStr s)
  | OutOfFuel => prompt args = true /\ w_yes_to_all w = false
  end.
Proof.
  destruct (process_file_cases fuel path args w)
    as [[_ E] | [(audio & _ & _ & E) | (audio & artist & title & _ & E)]];
    rewrite E.
  - cbn. split; [reflexivity|]. auto.
  - cbn. split; [reflexivity|]. auto.
  - rewrite process_tagged_run.
    destruct ((has_lrc path w || vc_contains "LYRICS" audio)
              && negb (force args) && negb (prompt args)).
    { cbn. split; [reflexivity|]. auto. }
    destruct (negb (truthy (lyrics_for artist title w))) eqn:Hl.
    { cbn. split; [reflexivity|]. auto. }
    apply negb_false_iff in Hl.
    pose proof (prompt_stage_ends fuel path args artist title
                  (lyrics_for artist title w) (requested artist title w))
      as H.
    destruct (fst (prompt_stage fuel path args artist title
                     (lyrics_for artist title w) (requested artist title w)))
      as [[p s]|e|].
    + destruct H as [-> [-> | [-> | [-> | ->]]]];
        (split; [reflexivity|cbn; auto 8]).
    + destruct H as [H | [Hd [H | [He Hs]]]]; [left; exact H| |].
      * right. split; [exact Hd|]. left. exact H.
      * right. split; [exact Hd|]. right. split; [exact He|].
        exists artist, title. split; [exact Hl|exact Hs].
    + exact H.
Qed.


(** X6. A file costs at most one request, and the request carries the
    file's own tags: after [process_file] the list of requests sent is the
    one before, or the one before followed by the pair of the first artist
    and the first title of the container. *)
Theorem process_file_one_request (fuel : nat) (path : string)
    (args : Args) (w : world) :
  w_requests (snd (process_file fuel path args w)) = w_requests w
  \/ exists audio artist title,
       tagged w path audio artist title
       /\ w_requests (snd (process_file fuel path args w))
          = (w_requests w ++ [(artist, title)])%list.
Proof.
  destruct (process_file_cases fuel path args w)
    as [[_ E] | [(audio & _ & _ & E) | (audio & artist & title & Ht & E)]];
    rewrite E; try (left; reflexivity).
  rewrite process_tagged_run.
  destruct ((has_lrc path w || vc_contains "LYRICS" audio)
            && negb (force args) && negb (prompt args));
    [left; reflexivity|].
  right. exists audio, artist, title. split; [exact Ht|].
  destruct (negb (truthy (lyrics_for artist title w))); [reflexivity|].
  rewrite prompt_stage_requests. reflexivity.
Qed.

(** X7. When the lookup fails (an exception of the transport, a status
    other than 200, a body that is not JSON), a file that reached the fetch
    is answered [not_found]: the request was sent, and nothing else
    happened, no question even in prompt mode, no write even with
    [--force]. *)
Theorem failed_lookup_is_not_found (fuel : nat) (path : string)
    (args : Args) (w : world) (audio : vcomment) (artist title : string) :
  tagged w path audio artist title ->
  (has_lrc path w || vc_contains "LYRICS" audio)
    && negb (force args) && negb (prompt args) = false ->
  (next_reply artist title w = TransportError
   \/ (exists st body,
         next_reply artist title w = Response st body /\ st <> 200%Z)
   \/ exists st, next_reply artist title w = Response st None) ->
  process_file fuel path args w
  = (Ret (path, "not_found"), requested artist title w).
Proof.
  intros Ht Hskip Hfail.
  rewrite (process_file_tagged _ _ _ _ _ _ _ Ht), process_tagged_run, Hskip.
  replace (lyrics_for artist title w) with PNone; [reflexivity|].
  unfold lyrics_for.
  destruct Hfail as [-> | [(st & body & -> & Hst) | (st & ->)]].
  - reflexivity.
  - cbn. destruct (st =? 200)%Z eqn:E; [|reflexivity].
    apply Z.eqb_eq in E. contradiction.
  - cbn. destruct (st =? 200)%Z; reflexivity.
Qed.

Lemma failed_lookup_is_not_found_witness :
  process_file 0 "/m/unknown.flac" SampleMore.forced_args Sample.w_odd
  = (Ret ("/m/unknown.flac", "not_found"),
     requested "Nobody" "Nothing" Sample.w_odd).
Proof.
  apply (failed_lookup_is_not_found 0 "/m/unknown.flac"
           SampleMore.forced_args Sample.w_odd
           [("artist", "Nobody"); ("title", "Nothing")] "Nobody" "Nothing").
  - repeat split; try reflexivity; discriminate.
  - reflexivity.
  - right. left. eexists _, _. split; [reflexivity|]. discriminate.
Defined.

(** ** A FLAC file is not its own sidecar *)

Lemma rev_acc_app a : forall b acc,
  PyStr.rev_acc (a ++ b) acc = PyStr.rev_acc b (PyStr.rev_acc a acc).
Proof.
  induction a as [|c a IH]; intros b acc; [reflexivity|].
  change (PyStr.rev_acc (a ++ b) (String c acc)
          = PyStr.rev_acc b (PyStr.rev_acc a (String c acc))).
  apply IH.
Qed.

Lemma str_append_assoc (a b c : string) : (a ++ b) ++ c = a ++ (b ++ c).
Proof.
  induction a as [|x a IH]; [reflexivity|].
  change (String x ((a ++ b) ++ c) = String x (a ++ (b ++ c))).
  f_equal. exact IH.
Qed.

Lemma rev_acc_acc a : forall acc,
  PyStr.rev_acc a acc = PyStr.rev_acc a EmptyString ++ acc.
Proof.
  induction a as [|c a IH]; intros acc; [reflexivity|].
  cbn. rewrite IH, (IH (String c EmptyString)).
  rewrite str_append_assoc. reflexivity.
Qed.

Lemma str_rev_app a b : PyStr.rev (a ++ b) = PyStr.rev b ++ PyStr.rev a.
Proof. unfold PyStr.rev. rewrite rev_acc_app. apply rev_acc_acc. Qed.

Lemma str_lower_app a b :
  PyStr.lower (a ++ b) = PyStr.lower a ++ PyStr.lower b.
Proof.
  induction a as [|c a IH]; [reflexivity|].
  change (String (PyStr.lower_char c) (PyStr.lower (a ++ b))
          = String (PyStr.lower_char c) (PyStr.lower a ++ PyStr.lower b)).
  f_equal. exact IH.
Qed.

Lemma str_prefix_app p : forall a b,
  String.prefix p a = true -> String.prefix p (a ++ b) = true.
Proof.
  induction p as [|c p IH]; intros a b H.
  { destruct (a ++ b); reflexivity. }
  destruct a as [|d a]; [discriminate H|].
  change (String.prefix (String c p) (String d (a ++ b)) = true).
  cbn [String.prefix] in H |- *.
  destruct (ascii_dec c d); [|discriminate H].
  apply IH, H.
Qed.

(** A suffix of the name is a suffix of the path. *)
Lemma endswith_app suffix pre s :
  PyStr.endswith suffix s = true -> PyStr.endswith suffix (pre ++ s) = true.
Proof. unfold PyStr.endswith. rewrite str_rev_app. apply str_prefix_app. Qed.

Lemma join_ends a b : exists pre, OsPath.join a b = pre ++ b.
Proof.
  unfold OsPath.join.
  destruct (PyStr.startswith "/" b); [exists EmptyString; reflexivity|].
  destruct (String.eqb a EmptyString || PyStr.endswith "/" a).
  - exists a. reflexivity.
  - exists (a ++ "/"). rewrite str_append_assoc. reflexivity.
Qed.

(** A path whose name ends in [.flac], whatever the case, is not the path
    of its sidecar, which ends in [.lrc]: the file [main] hands to
    [process_file] is never its own sidecar. *)
Lemma flac_not_own_sidecar root f :
  is_flac f = true ->
  lrc_path_of (OsPath.join root f) <> OsPath.join root f.
Proof.
  intros Hf E. destruct (join_ends root f) as [pre Hj].
  assert (H : PyStr.endswith ".flac" (PyStr.lower (OsPath.join root f))
              = true).
  { rewrite Hj, str_lower_app. apply endswith_app, Hf. }
  rewrite <- E in H. unfold lrc_path_of, PyStr.endswith in H.
  rewrite str_lower_app, str_rev_app in H. discriminate H.
Qed.

(** ** What a file is left with *)

Lemma neq_empty_eqb s : s <> EmptyString -> String.eqb s EmptyString = false.
Proof.
  intros H. destruct (String.eqb s EmptyString) eqn:E; [|reflexivity].
  apply String.eqb_eq in E. contradiction.
Qed.

(** X8. A file with its two tags that is not its own sidecar and is
    not skipped early, for which the service sends a non-empty string and
    no question is due, outside a dry run and with [open] and [save]
    succeeding: the sidecar is written exactly when nothing was at its path
    or [--force] is given, and then holds the string received, a container
    that sat at that path being one no more; the [LYRICS] comment is set
    exactly when it was absent or [--force] is given, to the same string;
    and the status is [updated] when one of the two was written and
    [skipped_existing] when none was. *)
Theorem found_lyrics_are_written (fuel : nat) (path : string)
    (args : Args) (w : world) (audio : vcomment) (artist title s : string) :
  tagged w path audio artist title ->
  lrc_path_of path <> path ->
  (has_lrc path w || vc_contains "LYRICS" audio)
    && negb (force args) && negb (prompt args) = false ->
  prompt args && negb (w_yes_to_all w) = false ->
  dry_run args = false ->
  lyrics_for artist title w = PStr s -> s <> EmptyString ->
  w_open_fails w (lrc_path_of path) = false ->
  w_save_fails w path = false ->
  let wrote_file := negb (has_lrc path w) || force args in
  let wrote_tag := negb (vc_contains "LYRICS" audio) || force args in
  let r := process_file fuel path args w in
  let flacs :=
    if wrote_file then delete (lrc_path_of path) (w_flacs w)
    else w_flacs w in
  fst r = Ret (path, if wrote_file || wrote_tag then "updated"
                     else "skipped_existing")
  /\ w_files (snd r)
     = (if wrote_file then <[lrc_path_of path := s]> (w_files w)
        else w_files w)
  /\ w_flacs (snd r)
     = (if wrote_tag then <[path := with_lyrics s audio]> flacs
        else flacs).
Proof.
  intros Ht Hown Hskip Hq Hd Hl Hs Ho Hsv wrote_file wrote_tag r flacs.
  subst wrote_file wrote_tag r flacs.
  rewrite (process_file_tagged _ _ _ _ _ _ _ Ht), process_tagged_run, Hskip.
  rewrite Hl. cbn [truthy]. rewrite (neq_empty_eqb _ Hs). cbn [negb].
  rewrite prompt_stage_direct by exact Hq.
  unfold write_stage. rewrite Hd. unfold bind.
  rewrite write_lrc_file_run.
  change (has_lrc path (requested artist title w)) with (has_lrc path w).
  change (w_open_fails (requested artist title w))
    with (w_open_fails w).
  destruct Ht as (Hf & _).
  assert (Hf' : delete (lrc_path_of path) (w_flacs w) !! path = Some audio)
    by (rewrite lookup_delete_ne by exact Hown; exact Hf).
  destruct (has_lrc path w) eqn:Hh, (force args) eqn:Hfo;
    cbn [negb andb orb]; rewrite ?Ho;
    rewrite embed_lyrics_flac_run; unfold write_text;
    cbn [w_flacs set_files set_flacs requested set_requests w_save_fails];
    rewrite ?Hf', ?Hf; cbn [vc_setitem all_str]; fold (with_lyrics s audio);
    destruct (vc_contains "LYRICS" audio) eqn:Hc;
    cbn [negb andb orb]; rewrite ?Hsv; cbn; auto.
Qed.

Lemma found_lyrics_are_written_witness :
  let r := process_file 0 "/m/a.flac" SampleMore.forced_args Sample.w_sidecar in
  fst r = Ret ("/m/a.flac", "updated")
  /\ w_files (snd r) = <["/m/a.lrc" := Sample.synced]> (w_files Sample.w_sidecar)
  /\ w_flacs (snd r)
     = <["/m/a.flac" := with_lyrics Sample.synced Sample.tags_a]>
         (delete "/m/a.lrc" (w_flacs Sample.w_sidecar)).
Proof.
  apply (found_lyrics_are_written 0 "/m/a.flac" SampleMore.forced_args
           Sample.w_sidecar Sample.tags_a "Foo" "Bar" Sample.synced).
  - repeat split; try reflexivity; discriminate.
  - discriminate.
  - reflexivity.
  - reflexivity.
  - reflexivity.
  - reflexivity.
  - discriminate.
  - reflexivity.
  - reflexivity.
Defined.

(** ** Running again *)

Lemma all_str_length values : forall l,
  all_str values = Some l -> length l = length values.
Proof.
  induction values as [|v rest IH]; intros l H.
  { cbn in H. injection H as <-. reflexivity. }
  destruct v; try discriminate H. cbn in H.
  destruct (all_str rest) as [l'|]; [|discriminate H].
  injection H as <-. cbn. f_equal. apply IH. reflexivity.
Qed.

Lemma filter_same_key_new key key' (l : list string) :
  PyStr.lower key <> PyStr.lower key' ->
  List.filter (vc_same_key key) (map (fun v => (key', v)) l) = [].
Proof.
  intros Hne. induction l as [|v rest IH]; [reflexivity|].
  cbn [map List.filter]. unfold vc_same_key at 1. cbn [fst].
  destruct (String.eqb (PyStr.lower key') (PyStr.lower key)) eqn:E;
    [|exact IH].
  apply String.eqb_eq in E. exfalso. apply Hne. symmetry. exact E.
Qed.

(** Setting [LYRICS] leaves the values of every other key. *)
Lemma vc_setitem_other key value audio t :
  vc_setitem "LYRICS" value audio = Some t ->
  PyStr.lower key <> "lyrics" ->
  vc_values key t = vc_values key audio.
Proof.
  unfold vc_setitem. intros H Hne.
  destruct (all_str match value with PList l => l | _ => [value] end)
    as [l|]; [|discriminate H].
  injection H as <-. unfold vc_values.
  rewrite List.filter_app, filter_same_key_after_removal by exact Hne.
  rewrite filter_same_key_new by exact Hne.
  rewrite app_nil_r. reflexivity.
Qed.

(** Setting [LYRICS] to a truthy value leaves a [LYRICS] comment. *)
Lemma vc_setitem_contains value audio t :
  truthy value = true ->
  vc_setitem "LYRICS" value audio = Some t ->
  vc_contains "LYRICS" t = true.
Proof.
  unfold vc_setitem. intros Ht H.
  destruct (all_str match value with PList l => l | _ => [value] end)
    as [l|] eqn:E; [|discriminate H].
  injection H as <-. apply all_str_length in E.
  destruct l as [|s l].
  { exfalso. destruct value as [ | | | |vs|]; cbn in E; try discriminate E.
    destruct vs; [discriminate Ht|discriminate E]. }
  unfold vc_contains. rewrite existsb_app. cbn. apply orb_true_r.
Qed.

Lemma vc_get_first_values key t t' :
  vc_values key t = vc_values key t' ->
  vc_get_first key t = vc_get_first key t'.
Proof. unfold vc_get_first. intros ->. reflexivity. Qed.

(** After a write stage that answers [updated], a file that is not its
    own sidecar has a sidecar or a [LYRICS] comment, and its other tags are
    those it had. *)
Lemma write_stage_updated path args lyrics w audio :
  lrc_path_of path <> path ->
  truthy lyrics = true ->
  w_flacs w !! path = Some audio ->
  fst (write_stage path args lyrics w) = Ret (path, "updated") ->
  exists audio',
    w_flacs (snd (write_stage path args lyrics w)) !! path = Some audio'
    /\ (forall key, PyStr.lower key <> "lyrics" ->
          vc_values key audio' = vc_values key audio)
    /\ has_lrc path (snd (write_stage path args lyrics w))
       || vc_contains "LYRICS" audio' = true.
Proof.
  intros Hown Ht Hf. unfold write_stage.
  destruct (dry_run args); [discriminate|].
  unfold bind. rewrite write_lrc_file_run.
  destruct (has_lrc path w && negb (force args)) eqn:Hskip.
  - (* the sidecar stays: the tag must have been written *)
    rewrite embed_lyrics_flac_run, Hf.
    destruct (vc_contains "LYRICS" audio && negb (force args));
      [discriminate|].
    destruct (vc_setitem "LYRICS" lyrics audio) as [t|] eqn:Es;
      [|discriminate].
    destruct (w_save_fails w path); [discriminate|].
    intros _. exists t. cbn [snd fst orb ret w_flacs set_flacs].
    split; [apply lookup_insert_eq|].
    split; [intros key Hk; apply (vc_setitem_other _ _ _ _ Es Hk)|].
    rewrite (vc_setitem_contains _ _ _ Ht Es). apply orb_true_r.
  - destruct (w_open_fails w (lrc_path_of path)); [discriminate|].
    destruct lyrics as [ | | |s| | ]; try discriminate.
    set (w1 := write_text (lrc_path_of path) s w).
    assert (Hl1 : has_lrc path w1 = true) by apply has_lrc_written.
    assert (Hf1 : w_flacs w1 !! path = Some audio).
    { subst w1. unfold write_text. cbn.
      rewrite lookup_delete_ne by exact Hown. exact Hf. }
    assert (Hl : forall t,
               has_lrc path (set_flacs (<[path := t]> (w_flacs w1)) w1)
               = true).
    { intros t. unfold has_lrc, path_exists in Hl1 |- *.
      apply orb_true_iff in Hl1 as [H | H].
      - apply orb_true_intro. left. exact H.
      - apply orb_true_intro. right. apply bool_decide_eq_true.
        apply bool_decide_eq_true in H. cbn.
        rewrite lookup_insert_ne by (intros E; apply Hown; symmetry; exact E).
        exact H. }
    rewrite embed_lyrics_flac_run, Hf1.
    destruct (vc_contains "LYRICS" audio && negb (force args)).
    { intros _. exists audio. cbn [snd fst orb ret].
      split; [exact Hf1|]. split; [reflexivity|].
      rewrite Hl1. reflexivity. }
    destruct (vc_setitem "LYRICS" (PStr s) audio) as [t|] eqn:Es.
    2:{ intros _. exists audio. cbn [snd fst orb ret].
        split; [exact Hf1|]. split; [reflexivity|].
        rewrite Hl1. reflexivity. }
    destruct (w_save_fails w1 path).
    { intros _. exists audio. cbn [snd fst orb ret].
      split; [exact Hf1|]. split; [reflexivity|].
      rewrite Hl1. reflexivity. }
    intros _. exists t. cbn [snd fst orb ret].
    split; [cbn; apply lookup_insert_eq|].
    split; [intros key Hk; apply (vc_setitem_other _ _ _ _ Es Hk)|].
    rewrite Hl. reflexivity.
Qed.

(** X9. A file that is not its own sidecar and that a run answered
    [updated] is answered [skipped_existing] by the next run without
    [--force] and [--prompt], which leaves the world alone: no request, no
    write. *)
Theorem updated_then_skipped (fuel fuel' : nat) (path : string)
    (args args' : Args) (w : world) :
  lrc_path_of path <> path ->
  fst (process_file fuel path args w) = Ret (path, "updated") ->
  force args' = false ->
  prompt args' = false ->
  let w1 := snd (process_file fuel path args w) in
  process_file fuel' path args' w1 = (Ret (path, "skipped_existing"), w1).
Proof.
  intros Hown Hu Hfo Hp w1. subst w1.
  destruct (process_file_cases fuel path args w)
    as [[_ E] | [(audio & _ & _ & E) | (audio & artist & title & Ht & E)]];
    rewrite E in Hu |- *; try discriminate Hu.
  rewrite process_tagged_run in Hu |- *.
  destruct ((has_lrc path w || vc_contains "LYRICS" audio)
            && negb (force args) && negb (prompt args));
    [discriminate Hu|].
  destruct (negb (truthy (lyrics_for artist title w))) eqn:Hl;
    [discriminate Hu|].
  apply negb_false_iff in Hl.
  destruct Ht as (Hf & Ha & Hti & Hna & Hnt).
  (* the world in which the write stage ran *)
  assert (Hws : exists w0,
             w_flacs w0 !! path = Some audio
             /\ prompt_stage fuel path args artist title
                  (lyrics_for artist title w) (requested artist title w)
                = write_stage path args (lyrics_for artist title w) w0).
  { destruct (prompt args
              && negb (w_yes_to_all (requested artist title w))) eqn:Eq.
    - rewrite prompt_stage_ask in Hu |- * by exact Eq.
      pose proof (prompt_loop_ends fuel path artist title
                    (requested artist title w)) as He.
      pose proof (prompt_loop_frame fuel path artist title
                    (requested artist title w)) as [[_ Hfl] _].
      destruct (prompt_loop fuel path artist title
                  (requested artist title w)) as [[[st|]|e|] w0];
        cbn [fst snd] in He, Hfl, Hu; try discriminate Hu.
      + subst st. discriminate Hu.
      + exists w0. split; [|reflexivity]. rewrite Hfl. exact Hf.
    - rewrite prompt_stage_direct by exact Eq.
      exists (requested artist title w). split; [exact Hf|reflexivity]. }
  destruct Hws as (w0 & Hf0 & Ews). rewrite Ews in Hu |- *.
  destruct (write_stage_updated path args _ w0 audio Hown Hl Hf0 Hu)
    as (audio' & Hf' & Hkeep & Hhas).
  assert (Ht' : tagged (snd (write_stage path args
                               (lyrics_for artist title w) w0))
                  path audio' artist title).
  { split; [exact Hf'|].
    split.
    { rewrite <- Ha. apply vc_get_first_values, Hkeep.
      vm_compute. discriminate. }
    split; [|split; assumption].
    rewrite <- Hti. apply vc_get_first_values, Hkeep.
    vm_compute. discriminate. }
  rewrite (process_file_tagged _ _ _ _ _ _ _ Ht'), process_tagged_run.
  rewrite Hhas, Hfo, Hp. reflexivity.
Qed.

Lemma updated_then_skipped_witness :
  let w1 := snd (process_file 0 "/m/a.flac" Sample.plain_args Sample.w0) in
  process_file 0 "/m/a.flac" Sample.plain_args w1
  = (Ret ("/m/a.flac", "skipped_existing"), w1).
Proof.
  apply (updated_then_skipped 0 0 "/m/a.flac" Sample.plain_args
           Sample.plain_args Sample.w0);
    [discriminate|reflexivity|reflexivity|reflexivity].
Defined.

(** ** The whole run *)

Lemma print_all_run lines : forall w,
  print_all lines w = (Ret tt, set_stdout (w_stdout w ++ lines)%list w).
Proof.
  induction lines as [|l rest IH]; intros w.
  { cbn. rewrite app_nil_r. destruct w; reflexivity. }
  cbn [print_all]. unfold bind, print. rewrite IH. cbn.
  rewrite <- app_assoc. reflexivity.
Qed.

(** [main] after the walk. *)
Lemma main_run fuel args w :
  main fuel args w
  = let w0 := set_yes_to_all false w in
    match for_walk fuel args (os_walk (directory args) w0) [] w0 with
    | (Ret log, w1) =>
        let w2 :=
          set_stdout (w_stdout w1 ++ summary_header :: log)%list w1 in
        match log_filename args w1 with
        | None => (Ret log, w2)
        | Some name =>
            if w_open_fails w2 name then (Raise OSError, w2)
            else
              (Ret log,
               set_stdout
                 (w_stdout w2 ++ [log_notice name])%list
                 (write_text name (String.concat nl log) w2))
        end
    | (Raise e, w1) => (Raise e, w1)
    | (OutOfFuel, w1) => (OutOfFuel, w1)
    end.
Proof.
  unfold main, bind at 1, put_yes_to_all. unfold bind at 1.
  cbv beta iota zeta. unfold bind at 1.
  destruct (for_walk fuel args
              (os_walk (directory args) (set_yes_to_all false w)) []
              (set_yes_to_all false w)) as [[log|e|] w1]; try reflexivity.
  unfold bind at 1, print. unfold bind at 1. rewrite print_all_run.
  cbn [w_stdout set_stdout].
  rewrite <- app_assoc. cbn [app].
  unfold log_filename.
  destruct (log_file args) as [name|]; [|reflexivity].
  cbn [truthy_str].
  destruct (String.eqb name EmptyString); [reflexivity|]. cbn [negb].
  unfold bind, get_now, ret, open_write, print.
  destruct (String.eqb name "AUTO"); cbn [w_now set_stdout w_open_fails];
    match goal with |- context [w_open_fails w1 ?p] =>
      destruct (w_open_fails w1 p) end; reflexivity.
Qed.

Lemma os_walk_env top w w' :
  w_scandir w' = w_scandir w -> os_walk top w' = os_walk top w.
Proof. unfold os_walk. intros ->. reflexivity. Qed.

Lemma log_filename_env args w w' :
  same_env w w' -> log_filename args w' = log_filename args w.
Proof.
  intros (_ & _ & _ & _ & _ & Hn). unfold log_filename. rewrite Hn.
  reflexivity.
Qed.

(** ** The root directory *)





Lemma process_file_env fuel path args :
  preserves same_env (process_file fuel path args).
Proof.
  apply (process_file_lift same_env same_env_refl same_env_trans
           harmless_env args).
  intros p l. apply write_stage_env.
Qed.

Lemma for_walk_env fuel args walk log_lines :
  preserves same_env (for_walk fuel args walk log_lines).
Proof.
  apply (for_walk_lift same_env same_env_refl same_env_trans
           harmless_env args).
  intros p l. apply write_stage_env.
Qed.





(** X11. A run without [--prompt] never reads the terminal: the
    position in the input when [main] ends is the position at which it
    began. *)
Theorem run_without_prompt_reads_nothing (fuel : nat) (args : Args)
    (w : world) :
  prompt args = false ->
  w_stdin_pos (snd (main fuel args w)) = w_stdin_pos w.
Proof.
  intros Hp. rewrite main_run. cbv zeta.
  assert (Hq : prompt args && negb (w_yes_to_all (set_yes_to_all false w))
               = false) by (rewrite Hp; reflexivity).
  pose proof (for_walk_silent fuel args
                (os_walk (directory args) (set_yes_to_all false w)) []
                (set_yes_to_all false w) Hq) as [Hpos _].
  destruct (for_walk fuel args
              (os_walk (directory args) (set_yes_to_all false w)) []
              (set_yes_to_all false w)) as [[log|e|] w1];
    cbn [snd] in Hpos; try exact Hpos.
  destruct (log_filename args w1) as [name|]; [|exact Hpos].
  match goal with |- context [w_open_fails ?w2 name] =>
    destruct (w_open_fails w2 name) end; exact Hpos.
Qed.

Lemma run_without_prompt_reads_nothing_witness :
  w_stdin_pos (snd (main 5 Sample.plain_args Sample.w_stubborn)) = 0.
Proof.
  apply (run_without_prompt_reads_nothing 5 Sample.plain_args
           Sample.w_stubborn eq_refl).
Defined.



(** ** The log *)

Lemma process_file_status fuel path args w p s :
  fst (process_file fuel path args w) = Ret (p, s) ->
  p = path /\ In s outcomes.
Proof.
  intros H. pose proof (process_file_ends_aux fuel path args w) as He.
  rewrite H in He. exact He.
Qed.

Lemma for_files_log fuel args root files : forall log_lines w log',
  fst (for_files fuel args root files log_lines w) = Ret log' ->
  exists statuses,
    length statuses = length (flac_paths_in root files)
    /\ all_outcomes statuses
    /\ log' = (log_lines ++ log_of (flac_paths_in root files) statuses)%list.
Proof.
  induction files as [|f rest IH]; intros log_lines w log' H.
  { cbn in H. injection H as <-. exists []. split; [reflexivity|].
    split; [constructor|]. cbn. rewrite app_nil_r. reflexivity. }
  cbn [for_files] in H. unfold flac_paths_in. cbn [List.filter].
  fold (is_flac f) in H.
  destruct (is_flac f).
  - unfold bind at 1, print in H. unfold bind at 1 in H.
    match type of H with context [process_file fuel ?p args ?w1] =>
      pose proof (process_file_status fuel p args w1) as Hs;
      destruct (process_file fuel p args w1) as [[[p' s]|e|] w2] end;
      cbn [fst snd] in H, Hs; try discriminate H.
    destruct (Hs p' s eq_refl) as [-> Hin].
    unfold bind at 1, print in H.
    apply IH in H as (statuses & Hlen & Hall & ->).
    exists (s :: statuses). cbn [map length].
    split; [f_equal; exact Hlen|].
    split; [constructor; assumption|].
    unfold log_of. cbn [combine map]. rewrite <- app_assoc. reflexivity.
  - apply IH in H. exact H.
Qed.

Lemma combine_app_same {A B} (l1 : list A) : forall (s1 : list B) l2 s2,
  length l1 = length s1 ->
  combine (l1 ++ l2) (s1 ++ s2) = (combine l1 s1 ++ combine l2 s2)%list.
Proof.
  induction l1 as [|a l1 IH]; intros [|b s1] l2 s2 H; try discriminate H.
  - reflexivity.
  - cbn. f_equal. apply IH. injection H as H. exact H.
Qed.

Lemma for_walk_log fuel args walk : forall log_lines w log',
  fst (for_walk fuel args walk log_lines w) = Ret log' ->
  exists statuses,
    length statuses = length (flac_paths walk)
    /\ all_outcomes statuses
    /\ log' = (log_lines ++ log_of (flac_paths walk) statuses)%list.
Proof.
  induction walk as [|[[root dirs] files] rest IH]; intros log_lines w log' H.
  { cbn in H. injection H as <-. exists []. split; [reflexivity|].
    split; [constructor|]. cbn. rewrite app_nil_r. reflexivity. }
  cbn [for_walk] in H. unfold bind in H.
  pose proof (for_files_log fuel args root files log_lines w) as Hf.
  destruct (for_files fuel args root files log_lines w) as [[l1|e|] w1];
    cbn [fst] in H, Hf; try discriminate H.
  destruct (Hf l1 eq_refl) as (st1 & Hlen1 & Hall1 & ->).
  apply IH in H as (st2 & Hlen2 & Hall2 & ->).
  exists (st1 ++ st2)%list. cbn [flac_paths].
  split; [rewrite !length_app; congruence|].
  split; [apply Forall_app; split; assumption|].
  unfold log_of. rewrite <- app_assoc. f_equal.
  rewrite <- map_app. f_equal.
  symmetry. apply combine_app_same. symmetry. exact Hlen1.
Qed.

(** X13. When a run returns, its log has exactly one line for every
    file of the walk whose name ends in [.flac] whatever the case, in the
    order of the walk; the line is the path, a colon and one of the seven
    statuses.  No other file has a line. *)
Theorem log_has_one_line_per_flac (fuel : nat) (args : Args) (w : world)
    (log : list string) :
  fst (main fuel args w) = Ret log ->
  exists statuses,
    length statuses = length (flac_paths_of args w)
    /\ all_outcomes statuses
    /\ log = log_of (flac_paths_of args w) statuses.
Proof.
  rewrite main_run. cbv zeta. intros H.
  pose proof (for_walk_log fuel args
                (os_walk (directory args) (set_yes_to_all false w)) []
                (set_yes_to_all false w)) as Hl.
  destruct (for_walk fuel args
              (os_walk (directory args) (set_yes_to_all false w)) []
              (set_yes_to_all false w)) as [[l1|e|] w1];
    cbn [fst] in Hl; try discriminate H.
  destruct (Hl l1 eq_refl) as (statuses & Hlen & Hall & E).
  assert (log = l1) as ->.
  { destruct (log_filename args w1) as [name|].
    - match type of H with context [w_open_fails ?w2 name] =>
        destruct (w_open_fails w2 name) end; cbn in H; congruence.
    - cbn in H. congruence. }
  exists statuses. split; [exact Hlen|]. split; [exact Hall|exact E].
Qed.

Lemma log_has_one_line_per_flac_witness :
  exists statuses,
    length statuses = length (flac_paths_of Sample.plain_args Sample.w_odd)
    /\ all_outcomes statuses
    /\ ["/m/untitled.flac: missing_tags"; "/m/broken.flac: error";
        "/m/unknown.flac: not_found"]
       = log_of (flac_paths_of Sample.plain_args Sample.w_odd) statuses.
Proof.
  apply (log_has_one_line_per_flac 0 Sample.plain_args Sample.w_odd).
  vm_compute. reflexivity.
Defined.

(** X14. When a run returns, the last thing it printed is the summary:
    the header, the lines of the log, and the notice of the log file when
    one is written; and that file then holds the lines of the log joined by
    newlines. *)
Theorem summary_repeats_log (fuel : nat) (args : Args) (w : world)
    (log : list string) :
  fst (main fuel args w) = Ret log ->
  (exists printed,
      w_stdout (snd (main fuel args w))
      = (printed ++ summary_lines args w log)%list)
  /\ forall name,
       log_filename args w = Some name ->
       w_files (snd (main fuel args w)) !! name
       = Some (String.concat nl log).
Proof.
  rewrite main_run. cbv zeta.
  pose proof (for_walk_env fuel args
                (os_walk (directory args) (set_yes_to_all false w)) []
                (set_yes_to_all false w)) as He.
  destruct (for_walk fuel args
              (os_walk (directory args) (set_yes_to_all false w)) []
              (set_yes_to_all false w)) as [[l1|e|] w1];
    cbn [snd] in He; try discriminate.
  unfold summary_lines.
  rewrite (log_filename_env args (set_yes_to_all false w) w1 He).
  change (log_filename args (set_yes_to_all false w))
    with (log_filename args w).
  destruct (log_filename args w) as [name|].
  - match goal with |- context [w_open_fails ?w2 name] =>
      destruct (w_open_fails w2 name) end; [discriminate|].
    cbn [fst snd]. intros [= ->]. split.
    + exists (w_stdout w1). cbn. rewrite <- app_assoc. reflexivity.
    + intros name' [= <-]. cbn. apply lookup_insert_eq.
  - cbn [fst snd]. intros [= ->]. split.
    + exists (w_stdout w1). cbn. rewrite app_nil_r. reflexivity.
    + intros name' Hn. discriminate Hn.
Qed.

Lemma summary_repeats_log_witness :
  exists printed,
    w_stdout (snd (main 0 Sample.plain_args Sample.w_odd))
    = (printed
       ++ summary_lines Sample.plain_args Sample.w_odd
            ["/m/untitled.flac: missing_tags"; "/m/broken.flac: error";
             "/m/unknown.flac: not_found"])%list.
Proof.
  apply (proj1 (summary_repeats_log 0 Sample.plain_args Sample.w_odd
                  ["/m/untitled.flac: missing_tags"; "/m/broken.flac: error";
                   "/m/unknown.flac: not_found"] eq_refl)).
Defined.


(** ** Runs that complete *)

Lemma calm_env w w' : same_env w w' -> calm w -> calm w'.
Proof.
  intros (_ & Hl & _ & Ho & _) [Hw Hs]. split.
  - intros p. rewrite Ho. apply Hw.
  - intros n a t. rewrite Hl. apply Hs.
Qed.

Lemma safe_run_env args w w' :
  same_env w w' -> safe_run args w -> safe_run args w'.
Proof.
  intros He [Hp [Hd | Hc]]; split; auto.
  right. apply (calm_env w w' He Hc).
Qed.

Lemma process_file_returns fuel path args w :
  safe_run args w ->
  exists s, fst (process_file fuel path args w) = Ret (path, s).
Proof.
  intros [Hp Hsafe].
  pose proof (process_file_ends_aux fuel path args w) as He.
  destruct (fst (process_file fuel path args w)) as [[p s]|e|].
  - destruct He as [-> _]. exists s. reflexivity.
  - exfalso.
    destruct He as [(_ & Hp' & _) | [Hd He]]; [congruence|].
    destruct Hsafe as [Hd' | [Hw Hs]]; [congruence|].
    destruct He as [[_ Ho] | (_ & a & t & Ht & Hn)].
    + rewrite Hw in Ho. discriminate Ho.
    + destruct (Hs (length (w_requests w)) a t) as [E | [s E]];
        fold (next_reply a t w) in E; fold (lyrics_for a t w) in E.
      * rewrite E in Ht. discriminate Ht.
      * apply (Hn s E).
  - destruct He as [Hp' _]. congruence.
Qed.

Lemma for_files_env fuel args root files log_lines :
  preserves same_env (for_files fuel args root files log_lines).
Proof.
  apply (for_files_lift same_env same_env_refl same_env_trans
           harmless_env args).
  intros p l. apply write_stage_env.
Qed.

Lemma for_files_returns fuel args root files : forall log_lines w,
  safe_run args w ->
  exists log',
    fst (for_files fuel args root files log_lines w) = Ret log'.
Proof.
  induction files as [|f rest IH]; intros log_lines w Hs.
  { exists log_lines. reflexivity. }
  cbn [for_files].
  destruct (PyStr.endswith ".flac" (PyStr.lower f)); [|apply IH; assumption].
  unfold bind at 1, print. unfold bind at 1.
  set (w1 := set_stdout _ w).
  assert (Hs1 : safe_run args w1) by exact Hs.
  destruct (process_file_returns fuel (OsPath.join root f) args w1 Hs1)
    as [s Hr].
  pose proof (process_file_env fuel (OsPath.join root f) args w1) as He.
  destruct (process_file fuel (OsPath.join root f) args w1) as [o w2].
  cbn [fst snd] in Hr, He. subst o.
  unfold bind at 1, print.
  apply IH.
  apply (safe_run_env args w2); [repeat split|].
  apply (safe_run_env args w1 w2 He Hs1).
Qed.

Lemma for_walk_returns fuel args walk : forall log_lines w,
  safe_run args w ->
  exists log', fst (for_walk fuel args walk log_lines w) = Ret log'.
Proof.
  induction walk as [|[[root dirs] files] rest IH]; intros log_lines w Hs.
  { exists log_lines. reflexivity. }
  cbn [for_walk]. unfold bind.
  destruct (for_files_returns fuel args root files log_lines w Hs)
    as [l1 Hl].
  pose proof (for_files_env fuel args root files log_lines w) as He.
  destruct (for_files fuel args root files log_lines w) as [o w1].
  cbn [fst snd] in Hl, He. subst o.
  apply IH. apply (safe_run_env args w w1 He Hs).
Qed.

(** [main] when the walk cannot be stopped: all hangs on the log file. *)
Lemma main_safe fuel args w :
  safe_run args w ->
  exists log w1,
    same_env w w1
    /\ (exists statuses,
          length statuses = length (flac_paths_of args w)
          /\ all_outcomes statuses
          /\ log = log_of (flac_paths_of args w) statuses)
    /\ main fuel args w
       = match log_filename args w with
         | None =>
             (Ret log,
              set_stdout (w_stdout w1 ++ summary_header :: log)%list w1)
         | Some name =>
             if w_open_fails w name
             then (Raise OSError,
                   set_stdout (w_stdout w1 ++ summary_header :: log)%list w1)
             else
               (Ret log,
                set_stdout
                  (w_stdout w1 ++ summary_header :: log ++ [log_notice name])
                  (write_text name (String.concat nl log) w1))
         end.
Proof.
  intros Hs. rewrite main_run. cbv zeta.
  assert (Hs0 : safe_run args (set_yes_to_all false w)) by exact Hs.
  destruct (for_walk_returns fuel args
              (os_walk (directory args) (set_yes_to_all false w)) []
              (set_yes_to_all false w) Hs0) as [l1 Hl].
  pose proof (for_walk_env fuel args
                (os_walk (directory args) (set_yes_to_all false w)) []
                (set_yes_to_all false w)) as He.
  pose proof (for_walk_log fuel args
                (os_walk (directory args) (set_yes_to_all false w)) []
                (set_yes_to_all false w) l1 Hl) as Hlog.
  destruct (for_walk fuel args
              (os_walk (directory args) (set_yes_to_all false w)) []
              (set_yes_to_all false w)) as [o w1].
  cbn [fst snd] in Hl, He. subst o.
  exists l1, w1. split; [exact He|]. split; [exact Hlog|].
  rewrite (log_filename_env args (set_yes_to_all false w) w1 He).
  change (log_filename args (set_yes_to_all false w))
    with (log_filename args w).
  destruct (log_filename args w) as [name|]; [|reflexivity].
  change (w_open_fails
            (set_stdout (w_stdout w1 ++ summary_header :: l1)%list w1) name)
    with (w_open_fails w1 name).
  destruct He as (_ & _ & _ & Ho & _). rewrite Ho.
  change (w_open_fails (set_yes_to_all false w) name)
    with (w_open_fails w name).
  destruct (w_open_fails w name); [reflexivity|].
  cbn. rewrite <- app_assoc. reflexivity.
Qed.

(** X15. Without [--prompt], in a dry run or where no [open] for
    writing fails and the service sends strings, and where the log file, if
    one is asked for, can be opened: the run completes for any fuel, [main]
    returns its log and the exit status is 0. *)
Theorem run_completes (fuel : nat) (args : Args) (w : world) :
  safe_run args w ->
  (forall name, log_filename args w = Some name ->
                w_open_fails w name = false) ->
  exists log,
    fst (main fuel args w) = Ret log
    /\ exit_status (fst (main fuel args w)) = Some 0%Z.
Proof.
  intros Hs Hlog.
  destruct (main_safe fuel args w Hs) as (log & w1 & _ & _ & E).
  rewrite E. exists log.
  destruct (log_filename args w) as [name|]; [|split; reflexivity].
  rewrite (Hlog name eq_refl). split; reflexivity.
Qed.

Lemma calm_sample : calm Sample.w0.
Proof.
  split.
  - intros p. reflexivity.
  - intros n artist title. unfold Sample.w0, w_lrclib, Sample.reply.
    destruct (String.eqb artist "Foo").
    { right. eexists. reflexivity. }
    destruct (String.eqb artist "Baz").
    { right. eexists. reflexivity. }
    left. reflexivity.
Qed.

Lemma run_completes_witness :
  exists log,
    fst (main 0 Sample.plain_args Sample.w0) = Ret log
    /\ exit_status (fst (main 0 Sample.plain_args Sample.w0)) = Some 0%Z.
Proof.
  apply (run_completes 0 Sample.plain_args Sample.w0).
  - split; [reflexivity|]. right. exact calm_sample.
  - intros name H. discriminate H.
Defined.

(** X16. When the log file cannot be opened, a run that nothing else can
    stop (no [--prompt], a dry run) ends in [OSError], exit status 1, after
    the whole walk: the summary, one line for every FLAC file, is the last
    thing printed. *)
Theorem unwritable_log_fails_run (fuel : nat) (args : Args) (w : world)
    (name : string) :
  prompt args = false ->
  dry_run args = true ->
  log_filename args w = Some name ->
  w_open_fails w name = true ->
  fst (main fuel args w) = Raise OSError
  /\ exit_status (fst (main fuel args w)) = Some 1%Z
  /\ exists printed statuses,
       length statuses = length (flac_paths_of args w)
       /\ w_stdout (snd (main fuel args w))
          = (printed
             ++ summary_header
                :: log_of (flac_paths_of args w) statuses)%list.
Proof.
  intros Hp Hd Hn Ho.
  destruct (main_safe fuel args w (conj Hp (or_introl Hd)))
    as (log & w1 & _ & (statuses & Hlen & _ & ->) & E).
  rewrite E, Hn, Ho. cbn [fst snd exit_status].
  split; [reflexivity|]. split; [reflexivity|].
  exists (w_stdout w1), statuses. split; [exact Hlen|reflexivity].
Qed.

Lemma unwritable_log_fails_run_witness :
  fst (main 0 SampleMore.dry_log_args (Sample.read_only_dirs Sample.w0))
  = Raise OSError.
Proof.
  apply (unwritable_log_fails_run 0 SampleMore.dry_log_args
           (Sample.read_only_dirs Sample.w0) "run.log");
    reflexivity.
Defined.

(** ** Requests over a run *)

Lemma process_file_request_count fuel path args w :
  length (w_requests (snd (process_file fuel path args w)))
  <= S (length (w_requests w)).
Proof.
  destruct (process_file_cases fuel path args w)
    as [[_ E] | [(audio & _ & _ & E) | (audio & artist & title & _ & E)]];
    rewrite E; cbn [snd]; try lia.
  rewrite process_tagged_run.
  destruct ((has_lrc path w || vc_contains "LYRICS" audio)
            && negb (force args) && negb (prompt args)); cbn [snd]; [lia|].
  destruct (negb (truthy (lyrics_for artist title w))).
  - cbn. rewrite length_app. cbn. lia.
  - rewrite prompt_stage_requests. cbn. rewrite length_app. cbn. lia.
Qed.

Lemma for_files_request_count fuel args root files : forall log_lines w,
  length (w_requests (snd (for_files fuel args root files log_lines w)))
  <= length (w_requests w) + length (flac_paths_in root files).
Proof.
  induction files as [|f rest IH]; intros log_lines w.
  { cbn. lia. }
  cbn [for_files]. unfold flac_paths_in. cbn [List.filter].
  fold (is_flac f). destruct (is_flac f).
  - unfold bind at 1, print. unfold bind at 1.
    set (w1 := set_stdout _ w).
    pose proof (process_file_request_count fuel (OsPath.join root f) args w1)
      as Hc.
    change (w_requests w1) with (w_requests w) in Hc.
    destruct (process_file fuel (OsPath.join root f) args w1)
      as [[st|e|] w2]; cbn [snd] in Hc |- *;
      cbn [map length]; try lia.
    unfold bind at 1, print.
    etransitivity; [apply IH|].
    cbn [w_requests set_stdout]. unfold flac_paths_in. lia.
  - etransitivity; [apply IH|]. unfold flac_paths_in. lia.
Qed.

Lemma for_walk_request_count fuel args walk : forall log_lines w,
  length (w_requests (snd (for_walk fuel args walk log_lines w)))
  <= length (w_requests w) + length (flac_paths walk).
Proof.
  induction walk as [|[[root dirs] files] rest IH]; intros log_lines w.
  { cbn. lia. }
  cbn [for_walk flac_paths]. unfold bind.
  pose proof (for_files_request_count fuel args root files log_lines w) as Hc.
  rewrite length_app.
  destruct (for_files fuel args root files log_lines w) as [[l1|e|] w1];
    cbn [snd] in Hc |- *; try lia.
  etransitivity; [apply IH|]. lia.
Qed.

(** X17. A run sends at most one request for every FLAC file of the
    walk: the number of requests it adds is bounded by the number of those
    files, however the run ends. *)
Theorem run_request_bound (fuel : nat) (args : Args) (w : world) :
  length (w_requests (snd (main fuel args w)))
  <= length (w_requests w) + length (flac_paths_of args w).
Proof.
  rewrite main_run. cbv zeta.
  pose proof (for_walk_request_count fuel args
                (os_walk (directory args) (set_yes_to_all false w)) []
                (set_yes_to_all false w)) as Hc.
  change (w_requests (set_yes_to_all false w)) with (w_requests w) in Hc.
  change (flac_paths (os_walk (directory args) (set_yes_to_all false w)))
    with (flac_paths_of args w) in Hc.
  destruct (for_walk fuel args
              (os_walk (directory args) (set_yes_to_all false w)) []
              (set_yes_to_all false w)) as [[l1|e|] w1];
    cbn [snd] in Hc |- *; try exact Hc.
  destruct (log_filename args w1) as [name|]; [|exact Hc].
  match goal with |- context [w_open_fails ?w2 name] =>
    destruct (w_open_fails w2 name) end; exact Hc.
Qed.

(** ** The answer y *)

(** X18. The answer y holds for the file it is given for only: in
    prompt mode with yes-to-all not set, a file whose lyrics are found and
    whose question is answered y after [k] rejected lines proceeds to its
    write stage, with [k + 1] lines read and yes-to-all still not set, so
    that the next file is asked about again. *)
Theorem yes_holds_for_one_file (fuel k : nat) (path : string)
    (args : Args) (w : world) (audio : vcomment)
    (artist title line : string) :
  tagged w path audio artist title ->
  prompt args = true ->
  truthy (lyrics_for artist title w) = true ->
  w_yes_to_all w = false ->
  rejects_next k w ->
  w_stdin w (w_stdin_pos w + k) = Some line ->
  normalise line = "y" ->
  k < fuel ->
  exists w0,
    process_file fuel path args w
    = write_stage path args (lyrics_for artist title w) w0
    /\ same_disk (requested artist title w) w0
    /\ w_yes_to_all (snd (process_file fuel path args w)) = false
    /\ w_stdin_pos (snd (process_file fuel path args w))
       = S (w_stdin_pos w + k).
Proof.
  intros Ht Hp Hfound Hy Hr Hl Ha Hk.
  rewrite (process_file_tagged _ _ _ _ _ _ _ Ht), process_tagged_run.
  rewrite Hp, andb_false_r, Hfound. cbn [negb].
  rewrite prompt_stage_ask by (cbn; rewrite Hp, Hy; reflexivity).
  destruct (prompt_loop_returns k fuel path artist title
              (requested artist title w) line Hr Hl (accepted_y _ Ha) Hk)
    as (H1 & H2 & H3).
  pose proof (prompt_loop_harmless fuel path artist title
                (requested artist title w)) as [He [Hfi Hfl]].
  destruct (prompt_loop fuel path artist title (requested artist title w))
    as [o w0].
  cbn [fst snd] in H1, H2, H3, He, Hfi, Hfl. subst o.
  unfold verdict. rewrite Ha.
  cbn [String.eqb Ascii.eqb Bool.eqb]. cbn match.
  exists w0. split; [reflexivity|].
  split.
  { destruct He as (_ & _ & _ & Ho & Hs & _).
    repeat split; congruence. }
  destruct (write_stage_frame path args (lyrics_for artist title w) w0)
    as [[Hpos Hflag] _].
  rewrite Hpos, Hflag, H2, H3, Ha.
  change (w_yes_to_all (requested artist title w)) with (w_yes_to_all w).
  rewrite Hy. split; reflexivity.
Qed.

Lemma yes_holds_for_one_file_witness :
  w_yes_to_all (snd (process_file 2 "/m/a.flac" Sample.prompt_args
                       Sample.w_hesitant)) = false
  /\ w_stdin_pos (snd (process_file 2 "/m/a.flac" Sample.prompt_args
                         Sample.w_hesitant)) = 2.
Proof.
  destruct (yes_holds_for_one_file 2 1 "/m/a.flac" Sample.prompt_args
              Sample.w_hesitant Sample.tags_a "Foo" "Bar" " Y")
    as (w0 & _ & _ & H3 & H4).
  - repeat split; try reflexivity; discriminate.
  - reflexivity.
  - reflexivity.
  - reflexivity.
  - intros i Hi. exists "maybe". replace i with 0 by lia.
    split; reflexivity.
  - reflexivity.
  - reflexivity.
  - lia.
  - split; [exact H3|exact H4].
Defined.
